(** * think-tool: the thought notebook of [think-tool.go]

    A shallow embedding of the three tool handlers [Think], [GetThoughts]
    and [ClearThoughts] of [ThinkTool] and of the helper [tidyThought].

    Go strings are byte sequences, and so are Rocq's [string]s (a list of
    8-bit [ascii]): [len] is [String.length], [s[:n]] is [substring 0 n s].

    The handlers touch the receiver only through four kinds of accesses
    (lock, unlock, load and store of the [thoughts] field) and read the
    wall clock once.  They are written below as programs over exactly these
    instructions.  The programs get two semantics: [run] executes one call
    alone, and [sched_step] interleaves the instructions of several
    goroutines that share one [ThinkTool]. *)

From Stdlib Require Import List String Ascii Arith Lia Bool.
From Stdlib Require Import Permutation DecimalString.
From Stdlib Require DecimalNat DecimalFacts.
Import ListNotations.
Local Open Scope list_scope.
Local Open Scope string_scope.

(** ** Strings as Go sees them *)

(** The line feed written [\n] in the Go source. *)
Definition LF : string := String (ascii_of_nat 10) EmptyString.

(** [len(s)] of a Go string: its number of bytes. *)
Definition len (s : string) : nat := String.length s.

(** [s[:hi]].  Go panics when [hi > len(s)]; the only use, in
    [tidyThought], sits under the guard [len(thought) > 50]. *)
Definition slice_to (s : string) (hi : nat) : string := substring 0 hi s.

(** The verb [%d] of [fmt.Sprintf] at a non-negative [int]. *)
Definition fmt_d (n : nat) : string := NilZero.string_of_uint (Nat.to_uint n).

(** [strings.Join(elems, sep)]: the first element, then each further one
    preceded by the separator. *)
Definition strings_Join (elems : list string) (sep : string) : string :=
  match elems with
  | [] => ""
  | e :: rest => fold_left (fun b s => b ++ sep ++ s) rest e
  end.

(** ** Data *)

(** [type ThoughtItem struct]. *)
Record ThoughtItem : Type := mkThoughtItem {
  Thought : string;
  CreatedAt : string
}.

(** [sync.Mutex]; its zero value is unlocked. *)
Inductive Mutex : Type := Unlocked | Locked.

(** [type ThinkTool struct]. *)
Record ThinkTool : Type := mkThinkTool {
  mu : Mutex;
  thoughts : list ThoughtItem
}.

(** [&ThinkTool{}], as [main] creates it. *)
Definition zero_ThinkTool : ThinkTool := mkThinkTool Unlocked [].

(** [type ThinkInput struct]; its field [Thought] is [InputThought] here,
    the name [Thought] being taken by the field of [ThoughtItem]. *)
Record ThinkInput : Type := mkThinkInput { InputThought : string }.

(** [mcp.CallToolParamsFor[In]]: only [Arguments] is read. *)
Record CallToolParamsFor (In : Type) : Type := mkParams { Arguments : In }.
Arguments mkParams {In} _.
Arguments Arguments {In} _.

(** [mcp.Content]; the handlers only build [*mcp.TextContent]. *)
Inductive Content : Type := TextContent (Text : string).

(** [mcp.CallToolResultFor[any]]. *)
Record CallToolResultFor : Type := mkResult { ResultContent : list Content }.

(** The [error] interface; every error here comes from [errors.New]. *)
Inductive error : Type := errors_New (msg : string).

(** What a handler returns: a pointer to a [CallToolResultFor] and an
    [error], where [None] is Go's [nil]. *)
Definition HandlerResult : Type := (option CallToolResultFor * option error)%type.

(** ** Programs over the shared tool *)

Inductive Prog (A : Type) : Type :=
| Ret (a : A)
| MuLock (k : Prog A)
| MuUnlock (k : Prog A)
| LoadThoughts (k : list ThoughtItem -> Prog A)
| StoreThoughts (l : list ThoughtItem) (k : Prog A)
| TimeNowRFC3339 (k : string -> Prog A).

Arguments Ret {A} _.
Arguments MuLock {A} _.
Arguments MuUnlock {A} _.
Arguments LoadThoughts {A} _.
Arguments StoreThoughts {A} _ _.
Arguments TimeNowRFC3339 {A} _.

Fixpoint bind {A B : Type} (p : Prog A) (f : A -> Prog B) : Prog B :=
  match p with
  | Ret a => f a
  | MuLock k => MuLock (bind k f)
  | MuUnlock k => MuUnlock (bind k f)
  | LoadThoughts k => LoadThoughts (fun l => bind (k l) f)
  | StoreThoughts l k => StoreThoughts l (bind k f)
  | TimeNowRFC3339 k => TimeNowRFC3339 (fun s => bind (k s) f)
  end.

Declare Scope prog_scope.
Delimit Scope prog_scope with prog.
Notation "x <- p ;; q" := (bind p (fun x => q))
  (at level 61, p at next level, right associativity) : prog_scope.
Notation "p ;; q" := (bind p (fun _ => q))
  (at level 61, right associativity) : prog_scope.
Local Open Scope prog_scope.

(** [t.mu.Lock()] *)
Definition t_mu_Lock : Prog unit := MuLock (Ret tt).
(** [t.mu.Unlock()] *)
Definition t_mu_Unlock : Prog unit := MuUnlock (Ret tt).
(** a read of [t.thoughts] *)
Definition t_thoughts : Prog (list ThoughtItem) := LoadThoughts (fun l => Ret l).
(** [t.thoughts = l] *)
Definition set_t_thoughts (l : list ThoughtItem) : Prog unit := StoreThoughts l (Ret tt).
(** [time.Now().Format(time.RFC3339)] *)
Definition time_Now_Format_RFC3339 : Prog string := TimeNowRFC3339 (fun s => Ret s).

(** [defer f] in front of [body]: [f] runs when [body] returns, on every
    return path, and the returned value is [body]'s. *)
Definition defer {A : Type} (f : Prog unit) (body : Prog A) : Prog A :=
  r <- body ;; f ;; Ret r.

(** ** The source functions *)

(** [func tidyThought(thought string) string] *)
Definition tidyThought (thought : string) : string :=
  if (50 <? len thought)%nat then slice_to thought 50 ++ "..."
  else thought.

(** The single text block every successful handler returns. *)
Definition text_result (s : string) : HandlerResult :=
  (Some (mkResult [TextContent s]), None).

(** [func (t *ThinkTool) Think(ctx, sess, params)] *)
Definition Think (params : CallToolParamsFor ThinkInput) : Prog HandlerResult :=
  t_mu_Lock ;;
  defer t_mu_Unlock (
    let thought := InputThought (Arguments params) in
    if (len thought =? 0)%nat then
      Ret (None, Some (errors_New "no thoughts provided"))
    else
      old <- t_thoughts ;;
      now <- time_Now_Format_RFC3339 ;;
      set_t_thoughts (old ++ [mkThoughtItem thought now])%list ;;
      Ret (text_result ("Thought: " ++ tidyThought thought))).

(** [fmt.Sprintf("Thought #%d at %s:\n%s\n", n, createdAt, thought)] *)
Definition Sprintf_thought (n : nat) (createdAt thought : string) : string :=
  "Thought #" ++ fmt_d n ++ " at " ++ createdAt ++ ":" ++ LF ++ thought ++ LF.

(** The [for i, thought := range t.thoughts] loop of [GetThoughts]: [i] is
    the index of the head of [items], [acc] the local slice [thoughts]. *)
Fixpoint range_thoughts (i : nat) (items : list ThoughtItem) (acc : list string)
  : list string :=
  match items with
  | [] => acc
  | thought :: rest =>
      range_thoughts (i + 1) rest
        (acc ++ [Sprintf_thought (i + 1) (CreatedAt thought) (Thought thought)])%list
  end.

(** [func (t *ThinkTool) GetThoughts(ctx, sess, params)] *)
Definition GetThoughts (params : CallToolParamsFor unit) : Prog HandlerResult :=
  t_mu_Lock ;;
  defer t_mu_Unlock (
    l <- t_thoughts ;;
    if (List.length l =? 0)%nat then
      Ret (None, Some (errors_New
        "no thoughts recorded. Use the think tool to record a thought first."))
    else
      items <- t_thoughts ;;
      let thoughts := range_thoughts 0 items [] in
      Ret (text_result (strings_Join thoughts LF))).

(** [func (t *ThinkTool) ClearThoughts(ctx, sess, params)] *)
Definition ClearThoughts (params : CallToolParamsFor unit) : Prog HandlerResult :=
  t_mu_Lock ;;
  defer t_mu_Unlock (
    set_t_thoughts [] ;;
    Ret (text_result "Thoughts cleared.")).

(** ** One call on its own *)

(** A call returns, or blocks for ever in [Lock] on a mutex nobody will
    release, or dies in the runtime's "unlock of unlocked mutex". *)
Inductive outcome (A : Type) : Type :=
| Returns (a : A) (t : ThinkTool)
| Blocks
| Fatal.
Arguments Returns {A} _ _.
Arguments Blocks {A}.
Arguments Fatal {A}.

(** [run now p t]: program [p] executed on tool [t] with no other
    goroutine around; [now] is what the clock reads during the call. *)
Fixpoint run {A : Type} (now : string) (p : Prog A) (t : ThinkTool) : outcome A :=
  match p with
  | Ret a => Returns a t
  | MuLock k =>
      match mu t with
      | Unlocked => run now k (mkThinkTool Locked (thoughts t))
      | Locked => Blocks
      end
  | MuUnlock k =>
      match mu t with
      | Locked => run now k (mkThinkTool Unlocked (thoughts t))
      | Unlocked => Fatal
      end
  | LoadThoughts k => run now (k (thoughts t)) t
  | StoreThoughts l k => run now k (mkThinkTool (mu t) l)
  | TimeNowRFC3339 k => run now (k now) t
  end.

(** The parameters of a [think] call with the given thought. *)
Definition think_params (thought : string) : CallToolParamsFor ThinkInput :=
  mkParams (mkThinkInput thought).

(** The parameters of the two calls without arguments ([struct{}]). *)
Definition no_params : CallToolParamsFor unit := mkParams tt.

(** A run of [think] calls, one after the other, each given as the pair of
    its thought and of the clock reading during the call.  [None] as soon
    as one call does not return a result with a [nil] error. *)
Fixpoint think_all (calls : list (string * string)) (t : ThinkTool)
  : option ThinkTool :=
  match calls with
  | [] => Some t
  | (thought, now) :: rest =>
      match run now (Think (think_params thought)) t with
      | Returns (Some _, None) t' => think_all rest t'
      | _ => None
      end
  end.

(** ** Goroutines sharing the tool *)

(** One instruction of one goroutine.  [Lock] can only be taken on a free
    mutex: a goroutine in front of a held one has no step.  The clock may
    read anything. *)
Inductive instr_step {A : Type} : ThinkTool -> Prog A -> ThinkTool -> Prog A -> Prop :=
| step_lock t k :
    mu t = Unlocked ->
    instr_step t (MuLock k) (mkThinkTool Locked (thoughts t)) k
| step_unlock t k :
    mu t = Locked ->
    instr_step t (MuUnlock k) (mkThinkTool Unlocked (thoughts t)) k
| step_load t k :
    instr_step t (LoadThoughts k) t (k (thoughts t))
| step_store t l k :
    instr_step t (StoreThoughts l k) (mkThinkTool (mu t) l) k
| step_now t k now :
    instr_step t (TimeNowRFC3339 k) t (k now).

(** The tool and the handler calls in flight, one per goroutine; a call
    that has returned [r] stays in the pool as [Ret r]. *)
Definition Config : Type := (ThinkTool * list (Prog HandlerResult))%type.

(** The scheduler picks any goroutine that has a step. *)
Inductive sched_step : Config -> Config -> Prop :=
| sched_pick t t' p p' g1 g2 :
    instr_step t p t' p' ->
    sched_step (t, (g1 ++ p :: g2)%list) (t', (g1 ++ p' :: g2)%list).

(** [steps n c c']: an execution of [n] instructions from [c] to [c']. *)
Inductive steps : nat -> Config -> Config -> Prop :=
| steps_O c : steps 0 c c
| steps_S n c c' c'' : steps n c c' -> sched_step c' c'' -> steps (S n) c c''.

(** The same step as a function: the instruction of [p] on [t] when the
    clock reads [now], if [p] has a step there. *)
Definition instr_exec {A : Type} (now : string) (t : ThinkTool) (p : Prog A)
  : option (ThinkTool * Prog A) :=
  match p with
  | Ret _ => None
  | MuLock k =>
      match mu t with
      | Unlocked => Some (mkThinkTool Locked (thoughts t), k)
      | Locked => None
      end
  | MuUnlock k =>
      match mu t with
      | Locked => Some (mkThinkTool Unlocked (thoughts t), k)
      | Unlocked => None
      end
  | LoadThoughts k => Some (t, k (thoughts t))
  | StoreThoughts l k => Some (mkThinkTool (mu t) l, k)
  | TimeNowRFC3339 k => Some (t, k now)
  end.

(** Goroutine number [i] of the pool takes its step. *)
Fixpoint pool_exec (now : string) (i : nat) (t : ThinkTool)
  (g : list (Prog HandlerResult)) : option Config :=
  match g, i with
  | [], _ => None
  | p :: rest, O =>
      match instr_exec now t p with
      | Some (t', p') => Some (t', p' :: rest)
      | None => None
      end
  | p :: rest, S j =>
      match pool_exec now j t rest with
      | Some (t', rest') => Some (t', p :: rest')
      | None => None
      end
  end.

(** A schedule names, step by step, the goroutine that runs and what the
    clock reads. *)
Fixpoint sched_exec (schedule : list (nat * string)) (c : Config) : option Config :=
  match schedule with
  | [] => Some c
  | (i, now) :: rest =>
      match pool_exec now i (fst c) (snd c) with
      | Some c' => sched_exec rest c'
      | None => None
      end
  end.

(** Where a [think] call with a non-empty thought stands: before [Lock],
    holding the mutex, having read [t.thoughts], having read the clock too,
    having stored the longer slice, and returned. *)
Inductive phase : Type :=
| NotStarted
| Holding
| HasRead (old : list ThoughtItem)
| HasTime (old : list ThoughtItem) (now : string)
| Written
| Finished.

(** The rest of the call at each phase. *)
Definition at_phase (thought : string) (ph : phase) : Prog HandlerResult :=
  let ok := text_result ("Thought: " ++ tidyThought thought) in
  let k4 := MuUnlock (Ret ok) in
  let k3 old now := StoreThoughts (old ++ [mkThoughtItem thought now])%list k4 in
  let k2 old := TimeNowRFC3339 (fun now => k3 old now) in
  let k1 := LoadThoughts k2 in
  match ph with
  | NotStarted => MuLock k1
  | Holding => k1
  | HasRead old => k2 old
  | HasTime old now => k3 old now
  | Written => k4
  | Finished => Ret ok
  end.

(** Instructions executed so far. *)
Definition phase_index (ph : phase) : nat :=
  match ph with
  | NotStarted => 0
  | Holding => 1
  | HasRead _ => 2
  | HasTime _ _ => 3
  | Written => 4
  | Finished => 5
  end.

(** 1 for a goroutine between its [Lock] and its [Unlock]. *)
Definition holds_mu (ph : phase) : nat :=
  match ph with
  | NotStarted | Finished => 0
  | _ => 1
  end.

(** 1 when the mutex is held. *)
Definition mu_count (m : Mutex) : nat :=
  match m with
  | Locked => 1
  | Unlocked => 0
  end.

(** The slice a goroutine has read is still the one in the tool. *)
Definition fresh_read (t : ThinkTool) (ph : phase) : Prop :=
  match ph with
  | HasRead old | HasTime old _ => old = thoughts t
  | _ => True
  end.

(** The thoughts already stored by the goroutines of a pool. *)
Fixpoint committed (ths : list (string * phase)) : list string :=
  match ths with
  | [] => []
  | (thought, ph) :: rest =>
      match ph with
      | Written | Finished => thought :: committed rest
      | _ => committed rest
      end
  end.

Definition holders (ths : list (string * phase)) : nat :=
  list_sum (map (fun th => holds_mu (snd th)) ths).

Definition progress (ths : list (string * phase)) : nat :=
  list_sum (map (fun th => phase_index (snd th)) ths).

(** The pool in which each goroutine stands at the given phase. *)
Definition pool_of (ths : list (string * phase)) : list (Prog HandlerResult) :=
  map (fun th => at_phase (fst th) (snd th)) ths.

(** What holds after [n] instructions of concurrent [think] calls with the
    thoughts [cs] on a tool that held [init]: every goroutine stands at
    some phase of its call, the mutex is held exactly when one goroutine is
    between [Lock] and [Unlock], no goroutine works on a stale copy of
    [t.thoughts], and the tool holds [init] followed by what the goroutines
    have stored. *)
Definition think_inv (cs : list string) (init : list ThoughtItem)
  (n : nat) (c : Config) : Prop :=
  exists ths added,
    snd c = pool_of ths /\
    map fst ths = cs /\
    progress ths = n /\
    holders ths = mu_count (mu (fst c)) /\
    Forall (fun th => fresh_read (fst c) (snd th)) ths /\
    thoughts (fst c) = (init ++ added)%list /\
    Permutation (map Thought added) (committed ths).

(** ** UTF-8, for the claims that speak of characters *)

(** A continuation byte, [10xxxxxx]. *)
Definition is_continuation (b : ascii) : bool :=
  let n := nat_of_ascii b in ((128 <=? n) && (n <? 192))%nat.

(** The number of characters of a UTF-8 text: every character has exactly
    one byte that is not a continuation byte, its first. *)
Fixpoint utf8_chars (s : string) : nat :=
  match s with
  | EmptyString => 0
  | String b rest =>
      if is_continuation b then utf8_chars rest else S (utf8_chars rest)
  end.

(** The decoder's state is the number of continuation bytes still owed to
    the current character, or [None] after a malformed byte. *)
Definition utf8_next (pending : option nat) (b : ascii) : option nat :=
  match pending with
  | None => None
  | Some O =>
      let n := nat_of_ascii b in
      if (n <? 128)%nat then Some 0
      else if (n <? 194)%nat then None
      else if (n <? 224)%nat then Some 1
      else if (n <? 240)%nat then Some 2
      else if (n <? 245)%nat then Some 3
      else None
  | Some (S k) => if is_continuation b then Some k else None
  end.

Fixpoint utf8_scan (pending : option nat) (s : string) : option nat :=
  match s with
  | EmptyString => pending
  | String b rest => utf8_scan (utf8_next pending b) rest
  end.

(** Every character of the text is complete: a first byte followed by as
    many continuation bytes as it announces. *)
Definition utf8_complete (s : string) : bool :=
  match utf8_scan (Some 0) s with
  | Some O => true
  | _ => false
  end.

(** The euro sign, U+20AC, three bytes in UTF-8: E2 82 AC. *)
Definition euro : string :=
  String (ascii_of_nat 226) (String (ascii_of_nat 130) (String (ascii_of_nat 172) "")).

Fixpoint repeat_string (n : nat) (s : string) : string :=
  match n with
  | O => ""
  | S m => s ++ repeat_string m s
  end.

(** A text of white space only: blanks, tabs, line feeds and the like. *)
Definition is_space (b : ascii) : bool :=
  let n := nat_of_ascii b in ((n =? 32) || ((9 <=? n) && (n <=? 13)))%nat.

Fixpoint all_space (s : string) : bool :=
  match s with
  | EmptyString => true
  | String b rest => is_space b && all_space rest
  end.

(** The acknowledgement's rule for short thoughts, with lengths counted in
    characters: a thought of at most 50 characters is echoed whole. *)
Definition short_thought_echoed_whole (s : string) : Prop :=
  utf8_chars s <= 50 ->
  forall t now, mu t = Unlocked ->
  exists t', run now (Think (think_params s)) t
             = Returns (Some (mkResult [TextContent ("Thought: " ++ s)]), None) t'.

(** ** The three tools together *)

(** A call of one of the tools that [main] registers on the one shared
    [thinkTool]: "think", "get_thoughts" and "clear_thoughts". *)
Inductive call : Type :=
| CallThink (thought : string)
| CallGetThoughts
| CallClearThoughts.

(** The handler [main] gives to [mcp.AddTool] for each tool. *)
Definition handler (c : call) : Prog HandlerResult :=
  match c with
  | CallThink thought => Think (think_params thought)
  | CallGetThoughts => GetThoughts no_params
  | CallClearThoughts => ClearThoughts no_params
  end.

(** Calls made one after the other, each with the result it returned, and
    the tool they leave. *)
Inductive serial_calls : ThinkTool -> list (call * HandlerResult) -> ThinkTool -> Prop :=
| serial_calls_nil t : serial_calls t [] t
| serial_calls_cons t c r now t1 rest t' :
    run now (handler c) t = Returns r t1 ->
    serial_calls t1 rest t' ->
    serial_calls t ((c, r) :: rest) t'.

(** [returns p t a t']: run alone on [t], program [p] returns [a] and
    leaves [t'], for some readings of the clock. *)
Inductive returns {A : Type} : Prog A -> ThinkTool -> A -> ThinkTool -> Prop :=
| returns_ret a t : returns (Ret a) t a t
| returns_lock k t a t' :
    mu t = Unlocked ->
    returns k (mkThinkTool Locked (thoughts t)) a t' ->
    returns (MuLock k) t a t'
| returns_unlock k t a t' :
    mu t = Locked ->
    returns k (mkThinkTool Unlocked (thoughts t)) a t' ->
    returns (MuUnlock k) t a t'
| returns_load k t a t' :
    returns (k (thoughts t)) t a t' ->
    returns (LoadThoughts k) t a t'
| returns_store l k t a t' :
    returns k (mkThinkTool (mu t) l) a t' ->
    returns (StoreThoughts l k) t a t'
| returns_now k now t a t' :
    returns (k now) t a t' ->
    returns (TimeNowRFC3339 k) t a t'.

(** Programs run one after the other, each with what it returned. *)
Inductive serial : ThinkTool -> list (Prog HandlerResult * HandlerResult)
                   -> ThinkTool -> Prop :=
| serial_nil t : serial t [] t
| serial_cons t p r t1 rest t' :
    returns p t r t1 -> serial t1 rest t' -> serial t ((p, r) :: rest) t'.

(** The rest of a call that holds the mutex: loads, stores and clock
    readings, then on every path one [Unlock] and the return. *)
Inductive holding {A : Type} : Prog A -> Prop :=
| holding_unlock a : holding (MuUnlock (Ret a))
| holding_load k : (forall l, holding (k l)) -> holding (LoadThoughts k)
| holding_store l k : holding k -> holding (StoreThoughts l k)
| holding_now k : (forall s, holding (k s)) -> holding (TimeNowRFC3339 k).

(** A call that starts with [Lock] and has [Unlock] deferred. *)
Inductive disciplined {A : Type} : Prog A -> Prop :=
| disciplined_lock k : holding k -> disciplined (MuLock k).

(** [within n p]: no path of [p] has more than [n] instructions. *)
Inductive within {A : Type} : nat -> Prog A -> Prop :=
| within_ret n a : within n (Ret a)
| within_lock n k : within n k -> within (S n) (MuLock k)
| within_unlock n k : within n k -> within (S n) (MuUnlock k)
| within_load n k : (forall l, within n (k l)) -> within (S n) (LoadThoughts k)
| within_store n l k : within n k -> within (S n) (StoreThoughts l k)
| within_now n k : (forall s, within n (k s)) -> within (S n) (TimeNowRFC3339 k).

(** 1 for a goroutine that is past its [Lock] and has not returned: its
    next instruction is neither [Lock] nor the return. *)
Definition inside_count {A : Type} (p : Prog A) : nat :=
  match p with
  | Ret _ | MuLock _ => 0
  | _ => 1
  end.

(** The goroutines of a pool that are inside the critical section. *)
Definition insiders {A : Type} (g : list (Prog A)) : nat :=
  list_sum (map inside_count g).

(** The calls of a pool, each paired with its original program, that have
    returned, with their results. *)
Fixpoint returned (ths : list (Prog HandlerResult * Prog HandlerResult))
  : list (Prog HandlerResult * HandlerResult) :=
  match ths with
  | [] => []
  | (p0, Ret r) :: rest => (p0, r) :: returned rest
  | _ :: rest => returned rest
  end.

(** Where the goroutine that runs [fst th] stands when its program has
    become [snd th]: waiting in front of [Lock], inside (and then whatever
    it returns from here on the tool [t], the whole call returns when run
    alone on [ts]), or returned. *)
Inductive thread_ok (t ts : ThinkTool)
  : Prog HandlerResult * Prog HandlerResult -> Prop :=
| ok_waiting p0 : disciplined p0 -> thread_ok t ts (p0, p0)
| ok_inside p0 cur :
    holding cur ->
    (forall r t2, returns cur t r t2 -> returns p0 ts r t2) ->
    thread_ok t ts (p0, cur)
| ok_returned p0 r : thread_ok t ts (p0, Ret r).

(** What holds all along an execution of disciplined calls [p0s] started
    on [t0]: the calls that have returned can be lined up so that, run one
    after the other from [t0], they return what they returned and leave a
    tool [ts]; the tool is [ts] when the mutex is free; and the mutex is
    held exactly when one goroutine is inside. *)
Definition atomic_inv (p0s : list (Prog HandlerResult)) (t0 : ThinkTool)
  (c : Config) : Prop :=
  exists ths hist ts,
    map fst ths = p0s /\
    map snd ths = snd c /\
    insiders (snd c) = mu_count (mu (fst c)) /\
    Forall (thread_ok (fst c) ts) ths /\
    (mu (fst c) = Unlocked -> fst c = ts) /\
    mu ts = Unlocked /\
    serial t0 hist ts /\
    Permutation hist (returned ths).

(** The thoughts a notebook holds after the given calls when it held
    [held] before: a [think] adds its thought unless it is empty, a
    [clear_thoughts] drops all, a [get_thoughts] changes nothing. *)
Fixpoint replay (calls : list call) (held : list string) : list string :=
  match calls with
  | [] => held
  | CallThink thought :: rest =>
      replay rest (if (len thought =? 0)%nat then held else (held ++ [thought])%list)
  | CallGetThoughts :: rest => replay rest held
  | CallClearThoughts :: rest => replay rest []
  end.

(** ** Decimal numerals, read back *)

(** The digit a byte stands for, if it is one of "0" to "9". *)
Definition digit_value (c : ascii) : option nat :=
  let n := nat_of_ascii c in
  if ((48 <=? n) && (n <=? 57))%nat then Some (n - 48) else None.

(** The number a string of digits writes, read from the left, after the
    digits that gave [acc]. *)
Fixpoint digits_value (s : string) (acc : nat) : option nat :=
  match s with
  | EmptyString => Some acc
  | String c rest =>
      match digit_value c with
      | Some v => digits_value rest (10 * acc + v)
      | None => None
      end
  end.

(** The number that [d] is the decimal numeral of: [d] has digits only, at
    least one, and starts with "0" only if it is "0". *)
Definition decimal_numeral (d : string) : option nat :=
  match d with
  | EmptyString => None
  | String c rest =>
      if ((nat_of_ascii c =? 48)%nat && negb (len rest =? 0)%nat)%bool then None
      else digits_value d 0
  end.

(** * Properties *)

Example Think_hello :
  run "2025-01-01T00:00:00Z" (Think (think_params "hello")) zero_ThinkTool
  = Returns (text_result "Thought: hello")
      (mkThinkTool Unlocked [mkThoughtItem "hello" "2025-01-01T00:00:00Z"]).
Proof. reflexivity. Qed.

Example GetThoughts_two :
  run "x" (GetThoughts no_params)
    (mkThinkTool Unlocked [mkThoughtItem "a" "t1"; mkThoughtItem "b" "t2"])
  = Returns (text_result
      ("Thought #1 at t1:" ++ LF ++ "a" ++ LF ++ LF ++
       "Thought #2 at t2:" ++ LF ++ "b" ++ LF))
      (mkThinkTool Unlocked [mkThoughtItem "a" "t1"; mkThoughtItem "b" "t2"]).
Proof. reflexivity. Qed.

Example fmt_d_10 : fmt_d 10 = "10".
Proof. reflexivity. Qed.

Example tidyThought_50 :
  tidyThought "01234567890123456789012345678901234567890123456789"
  = "01234567890123456789012345678901234567890123456789".
Proof. reflexivity. Qed.

Example tidyThought_51 :
  tidyThought "01234567890123456789012345678901234567890123456789X"
  = "01234567890123456789012345678901234567890123456789...".
Proof. reflexivity. Qed.

Example GetThoughts_none :
  run "x" (GetThoughts no_params) zero_ThinkTool
  = Returns (None, Some (errors_New
      "no thoughts recorded. Use the think tool to record a thought first."))
      zero_ThinkTool.
Proof. reflexivity. Qed.

(** ** Strings *)

Lemma append_nil_r (s : string) : s ++ "" = s.
Proof. induction s as [|a s IH]; simpl; [reflexivity | now rewrite IH]. Qed.

Lemma append_assoc (a b c : string) : (a ++ b) ++ c = a ++ b ++ c.
Proof. induction a as [|x a IH]; simpl; [reflexivity | now rewrite IH]. Qed.

Lemma len_append (a b : string) : len (a ++ b) = len a + len b.
Proof. unfold len; induction a as [|x a IH]; simpl; [reflexivity | now rewrite IH]. Qed.

Lemma len_nonempty (s : string) : s <> "" <-> 1 <= len s.
Proof.
  destruct s as [|a s]; simpl; split; intro H.
  - now elim H.
  - inversion H.
  - lia.
  - discriminate.
Qed.

(** [s[:hi]] within range is the part of [s] before position [hi]. *)
Lemma slice_to_split (hi : nat) :
  forall s, hi <= len s ->
  exists tail, s = slice_to s hi ++ tail /\ len (slice_to s hi) = hi.
Proof.
  unfold slice_to, len.
  induction hi as [|hi IH]; intros s Hle.
  - exists s. destruct s; simpl; auto.
  - destruct s as [|a s]; simpl in *; [lia|].
    destruct (IH s) as (tail & Heq & Hlen); [lia|].
    exists tail. split; [now rewrite <- Heq | now rewrite Hlen].
Qed.

Lemma fold_join (sep : string) (rest : list string) :
  forall e, fold_left (fun b s => b ++ sep ++ s) rest e
            = e ++ fold_left (fun b s => b ++ sep ++ s) rest "".
Proof.
  induction rest as [|x rest IH]; intro e; simpl.
  - now rewrite append_nil_r.
  - rewrite (IH (e ++ sep ++ x)), (IH (sep ++ x)). now rewrite !append_assoc.
Qed.

(** [strings.Join] is the standard library's [String.concat]. *)
Lemma strings_Join_concat (sep : string) (elems : list string) :
  strings_Join elems sep = String.concat sep elems.
Proof.
  destruct elems as [|e rest]; [reflexivity|].
  unfold strings_Join. revert e.
  induction rest as [|x rest IH]; intro e.
  - reflexivity.
  - simpl fold_left.
    change (String.concat sep (e :: x :: rest))
      with (e ++ sep ++ String.concat sep (x :: rest)).
    rewrite <- (IH x), (fold_join sep rest x), (fold_join sep rest (e ++ sep ++ x)).
    now rewrite !append_assoc.
Qed.

(** ** The verb [%d] *)

Example decimal_numeral_12 : decimal_numeral "12" = Some 12.
Proof. reflexivity. Qed.

Example decimal_numeral_012 : decimal_numeral "012" = None.
Proof. reflexivity. Qed.

Example decimal_numeral_empty : decimal_numeral "" = None.
Proof. reflexivity. Qed.

Lemma digits_value_string_of_uint (u : Decimal.uint) :
  forall acc,
    digits_value (NilEmpty.string_of_uint u) acc = Some (Nat.of_uint_acc u acc).
Proof.
  induction u as [|u IH|u IH|u IH|u IH|u IH|u IH|u IH|u IH|u IH|u IH];
    intros acc; [reflexivity|..];
    cbn [NilEmpty.string_of_uint digits_value Nat.of_uint_acc];
    match goal with
    | |- context [digit_value ?c] =>
        let v := eval cbv in (digit_value c) in change (digit_value c) with v
    end;
    cbv iota; rewrite IH, Nat.tail_mul_spec; do 2 f_equal; lia.
Qed.

Lemma nzhead_no_zero (u r : Decimal.uint) : Decimal.nzhead u <> Decimal.D0 r.
Proof. induction u; simpl; try discriminate; assumption. Qed.

(** The numeral of a natural number is normal: no zero in front. *)
Lemma to_uint_normal (n : nat) :
  Nat.to_uint n <> Decimal.Nil /\
  forall r, Nat.to_uint n = Decimal.D0 r -> r = Decimal.Nil.
Proof.
  pose proof (DecimalNat.Unsigned.to_of (Nat.to_uint n)) as H.
  rewrite DecimalNat.Unsigned.of_to in H.
  unfold Decimal.unorm in H.
  destruct (Decimal.nzhead (Nat.to_uint n)) as [|r'| | | | | | | | |] eqn:Hnz.
  - rewrite H. split; [discriminate|]. intros r Hr. now injection Hr as <-.
  - now elim (nzhead_no_zero (Nat.to_uint n) r').
  - rewrite H. split; [discriminate | intros; discriminate].
  - rewrite H. split; [discriminate | intros; discriminate].
  - rewrite H. split; [discriminate | intros; discriminate].
  - rewrite H. split; [discriminate | intros; discriminate].
  - rewrite H. split; [discriminate | intros; discriminate].
  - rewrite H. split; [discriminate | intros; discriminate].
  - rewrite H. split; [discriminate | intros; discriminate].
  - rewrite H. split; [discriminate | intros; discriminate].
  - rewrite H. split; [discriminate | intros; discriminate].
Qed.

(** What [%d] prints is the decimal numeral of the number. *)
Lemma fmt_d_decimal (n : nat) : decimal_numeral (fmt_d n) = Some n.
Proof.
  unfold fmt_d.
  destruct (to_uint_normal n) as [Hnil Hzero].
  pose proof (DecimalNat.Unsigned.of_to n) as Hval. unfold Nat.of_uint in Hval.
  pose proof (digits_value_string_of_uint (Nat.to_uint n) 0) as Hd.
  rewrite Hval in Hd.
  destruct (Nat.to_uint n) as [|r| | | | | | | | |] eqn:Hu;
    [now elim Hnil | | exact Hd ..].
  rewrite (Hzero r eq_refl) in *. 
  cbv in Hval. rewrite <- Hval. reflexivity.
Qed.

(** ** The handlers, one call at a time *)

Lemma run_Think_nonempty (t : ThinkTool) (now s : string) :
  mu t = Unlocked -> s <> "" ->
  run now (Think (think_params s)) t
  = Returns (text_result ("Thought: " ++ tidyThought s))
      (mkThinkTool Unlocked (thoughts t ++ [mkThoughtItem s now])).
Proof.
  intros Hmu Hs. destruct t as [m l], s as [|a s]; simpl in Hmu; subst.
  - now elim Hs.
  - reflexivity.
Qed.

Lemma run_Think_empty (t : ThinkTool) (now : string) :
  mu t = Unlocked ->
  run now (Think (think_params "")) t
  = Returns (None, Some (errors_New "no thoughts provided")) t.
Proof. intros Hmu. destruct t as [m l]; simpl in Hmu; subst. reflexivity. Qed.

Lemma run_GetThoughts_empty (t : ThinkTool) (now : string) :
  mu t = Unlocked -> thoughts t = [] ->
  run now (GetThoughts no_params) t
  = Returns (None, Some (errors_New
      "no thoughts recorded. Use the think tool to record a thought first.")) t.
Proof. intros Hmu Hl. destruct t as [m l]; simpl in *; subst. reflexivity. Qed.

Lemma run_GetThoughts_nonempty (t : ThinkTool) (now : string) :
  mu t = Unlocked -> thoughts t <> [] ->
  run now (GetThoughts no_params) t
  = Returns (text_result (strings_Join (range_thoughts 0 (thoughts t) []) LF)) t.
Proof.
  intros Hmu Hl. destruct t as [m [|it l]]; simpl in *; subst.
  - now elim Hl.
  - reflexivity.
Qed.

Lemma run_ClearThoughts (t : ThinkTool) (now : string) :
  mu t = Unlocked ->
  run now (ClearThoughts no_params) t
  = Returns (text_result "Thoughts cleared.") zero_ThinkTool.
Proof. intros Hmu. destruct t as [m l]; simpl in Hmu; subst. reflexivity. Qed.

(** With the mutex held by someone else no handler gets past its [Lock]:
    the theorems below are about calls on a tool whose mutex is free. *)
Lemma run_held_mutex_blocks (t : ThinkTool) (now s : string) :
  mu t = Locked ->
  run now (Think (think_params s)) t = Blocks /\
  run now (GetThoughts no_params) t = Blocks /\
  run now (ClearThoughts no_params) t = Blocks.
Proof. intros Hmu. destruct t as [m l]; simpl in Hmu; subst. repeat split. Qed.

(** The loop of [GetThoughts] adds one paragraph per item, in order, and
    numbers them from [i + 1]. *)
Lemma range_thoughts_spec (items : list ThoughtItem) :
  forall i acc, exists paras,
    range_thoughts i items acc = (acc ++ paras)%list /\
    List.length paras = List.length items /\
    forall k it, nth_error items k = Some it ->
      nth_error paras k
      = Some (Sprintf_thought (i + k + 1) (CreatedAt it) (Thought it)).
Proof.
  induction items as [|it0 rest IH]; intros i acc; simpl.
  - exists []. rewrite app_nil_r. repeat split; auto.
    intros [|k] it; discriminate.
  - destruct (IH (i + 1) (acc ++ [Sprintf_thought (i + 1) (CreatedAt it0) (Thought it0)])%list)
      as (paras & Heq & Hlen & Hnth).
    exists (Sprintf_thought (i + 1) (CreatedAt it0) (Thought it0) :: paras).
    split; [|split].
    + rewrite Heq, <- app_assoc. reflexivity.
    + simpl. now rewrite Hlen.
    + intros [|k] it Hk; simpl in *.
      * injection Hk as <-. now rewrite Nat.add_0_r.
      * rewrite (Hnth k it Hk). do 2 f_equal. lia.
Qed.

Lemma think_all_spec (calls : list (string * string)) :
  forall t, mu t = Unlocked -> Forall (fun c => fst c <> "") calls ->
  think_all calls t
  = Some (mkThinkTool Unlocked
      (thoughts t ++ map (fun c => mkThoughtItem (fst c) (snd c)) calls)).
Proof.
  induction calls as [|[s now] calls IH]; intros t Hmu Hne; cbn [think_all map].
  - rewrite app_nil_r. destruct t; simpl in *; now subst.
  - inversion Hne as [|? ? Hs Hrest]; subst. simpl in Hs.
    rewrite (run_Think_nonempty t now s Hmu Hs). unfold text_result.
    rewrite IH by auto. simpl. now rewrite <- app_assoc.
Qed.

(** ** Recording a thought *)

(** C1. A [think] call with a non-empty thought [s] returns a result and
    no error, makes the sequence of thoughts exactly one longer, and the new
    last entry holds [s] itself, with the clock reading of the call; the
    entries before it are the old ones. *)
Theorem Think_appends_one (t : ThinkTool) (now s : string) :
  mu t = Unlocked -> s <> "" ->
  exists r t' it,
    run now (Think (think_params s)) t = Returns (Some r, None) t' /\
    List.length (thoughts t') = List.length (thoughts t) + 1 /\
    thoughts t' = (thoughts t ++ [it])%list /\
    last (thoughts t') it = it /\
    Thought it = s /\ CreatedAt it = now /\
    mu t' = Unlocked.
Proof.
  intros Hmu Hs.
  exists (mkResult [TextContent ("Thought: " ++ tidyThought s)]).
  exists (mkThinkTool Unlocked (thoughts t ++ [mkThoughtItem s now])).
  exists (mkThoughtItem s now).
  split; [exact (run_Think_nonempty t now s Hmu Hs)|].
  cbn [thoughts mu Thought CreatedAt].
  rewrite length_app, last_last. simpl. repeat split; reflexivity.
Qed.

Lemma Think_appends_one_witness :
  exists r t' it,
    run "2025-06-01T12:00:00Z" (Think (think_params "plan"))
      (mkThinkTool Unlocked [mkThoughtItem "first" "2025-06-01T11:59:00Z"])
    = Returns (Some r, None) t' /\
    List.length (thoughts t') = 1 + 1 /\
    thoughts t' = [mkThoughtItem "first" "2025-06-01T11:59:00Z"; it] /\
    last (thoughts t') it = it /\
    Thought it = "plan" /\ CreatedAt it = "2025-06-01T12:00:00Z" /\
    mu t' = Unlocked.
Proof.
  apply (Think_appends_one
           (mkThinkTool Unlocked [mkThoughtItem "first" "2025-06-01T11:59:00Z"])
           "2025-06-01T12:00:00Z" "plan").
  - reflexivity.
  - discriminate.
Defined.

(** C2. A [think] call with the empty thought returns no result and the
    error "no thoughts provided", and leaves the tool as it was. *)
Theorem Think_empty_rejected (t : ThinkTool) (now : string) :
  mu t = Unlocked ->
  run now (Think (think_params "")) t
  = Returns (None, Some (errors_New "no thoughts provided")) t.
Proof. exact (run_Think_empty t now). Qed.

Lemma Think_empty_rejected_witness :
  run "2025-06-01T12:00:00Z" (Think (think_params ""))
    (mkThinkTool Unlocked [mkThoughtItem "first" "2025-06-01T11:59:00Z"])
  = Returns (None, Some (errors_New "no thoughts provided"))
      (mkThinkTool Unlocked [mkThoughtItem "first" "2025-06-01T11:59:00Z"]).
Proof.
  apply (Think_empty_rejected
           (mkThinkTool Unlocked [mkThoughtItem "first" "2025-06-01T11:59:00Z"])).
  reflexivity.
Defined.

(** C10. [Think] neither trims nor normalises: every thought of at least
    one byte is accepted and stored byte for byte, also one of white space
    only, and a call fails exactly when the thought is the empty string. *)
Theorem Think_stores_verbatim (t : ThinkTool) (now s : string) :
  mu t = Unlocked ->
  (1 <= len s ->
   exists r, run now (Think (think_params s)) t
             = Returns (Some r, None)
                 (mkThinkTool Unlocked (thoughts t ++ [mkThoughtItem s now]))) /\
  (all_space s = true -> s <> "" ->
   exists r, run now (Think (think_params s)) t
             = Returns (Some r, None)
                 (mkThinkTool Unlocked (thoughts t ++ [mkThoughtItem s now]))) /\
  ((exists e t', run now (Think (think_params s)) t = Returns (None, Some e) t')
   <-> s = "").
Proof.
  intros Hmu.
  assert (Hok : s <> "" ->
    exists r, run now (Think (think_params s)) t
              = Returns (Some r, None)
                  (mkThinkTool Unlocked (thoughts t ++ [mkThoughtItem s now]))).
  { intros Hs. eexists. exact (run_Think_nonempty t now s Hmu Hs). }
  split; [|split].
  - intros Hlen. apply Hok, len_nonempty, Hlen.
  - intros _. exact Hok.
  - split.
    + intros (e & t' & Hrun).
      destruct s as [|a s]; [reflexivity|].
      rewrite run_Think_nonempty in Hrun by (auto; discriminate).
      discriminate.
    + intros ->. eexists _, _. exact (run_Think_empty t now Hmu).
Qed.

Lemma Think_stores_verbatim_witness :
  all_space "  " = true /\
  exists r, run "2025-06-01T12:00:00Z" (Think (think_params "  ")) zero_ThinkTool
            = Returns (Some r, None)
                (mkThinkTool Unlocked [mkThoughtItem "  " "2025-06-01T12:00:00Z"]).
Proof.
  split; [reflexivity|].
  apply (Think_stores_verbatim zero_ThinkTool "2025-06-01T12:00:00Z" "  ").
  - reflexivity.
  - reflexivity.
  - discriminate.
Defined.

(** ** The acknowledgement *)

Lemma tidyThought_short (s : string) : len s <= 50 -> tidyThought s = s.
Proof.
  intros Hle. unfold tidyThought.
  destruct (Nat.ltb_spec 50 (len s)); [lia | reflexivity].
Qed.

Lemma tidyThought_long (s : string) :
  50 < len s ->
  exists head tail,
    s = head ++ tail /\ len head = 50 /\ tidyThought s = head ++ "...".
Proof.
  intros Hlt. unfold tidyThought.
  destruct (Nat.ltb_spec 50 (len s)); [|lia].
  destruct (slice_to_split 50 s) as (tail & Heq & Hlen); [lia|].
  exists (slice_to s 50), tail. auto.
Qed.

Lemma len_tidyThought (s : string) : len (tidyThought s) <= 53.
Proof.
  destruct (Nat.le_gt_cases (len s) 50) as [Hle|Hlt].
  - now rewrite tidyThought_short; [lia|].
  - destruct (tidyThought_long s Hlt) as (head & tail & _ & Hlen & ->).
    rewrite len_append, Hlen. simpl. lia.
Qed.

(** C3, with lengths in characters.  Seventeen euro signs are seventeen
    characters, far fewer than fifty, but fifty-one bytes: the echo is their
    first fifty bytes and the marker, not the thought. *)
Lemma Think_echo_in_characters_fails :
  utf8_complete (repeat_string 17 euro) = true /\
  utf8_chars (repeat_string 17 euro) = 17 /\
  len (repeat_string 17 euro) = 51 /\
  run "2025-06-01T12:00:00Z" (Think (think_params (repeat_string 17 euro)))
    zero_ThinkTool
  = Returns
      (Some (mkResult
         [TextContent
            ("Thought: " ++ repeat_string 16 euro
               ++ String (ascii_of_nat 226) (String (ascii_of_nat 130) "..."))]),
       None)
      (mkThinkTool Unlocked
         [mkThoughtItem (repeat_string 17 euro) "2025-06-01T12:00:00Z"]) /\
  ~ short_thought_echoed_whole (repeat_string 17 euro).
Proof.
  split; [reflexivity|]. split; [reflexivity|]. split; [reflexivity|].
  split; [reflexivity|].
  intros H.
  destruct (H ltac:(vm_compute; lia) zero_ThinkTool "" eq_refl) as (t' & Hrun).
  vm_compute in Hrun. discriminate Hrun.
Qed.

(** C3, with lengths in bytes.  A [think] call with a non-empty thought [s]
    answers "Thought: " followed by an echo of at most 53 bytes: [s] itself
    when [s] has at most 50 bytes, else the first 50 bytes of [s] followed
    by "..."; the stored entry holds all of [s] in both cases. *)
Theorem Think_echo_in_bytes (t : ThinkTool) (now s : string) :
  mu t = Unlocked -> s <> "" ->
  exists echo t' it,
    run now (Think (think_params s)) t
    = Returns (Some (mkResult [TextContent ("Thought: " ++ echo)]), None) t' /\
    len echo <= 53 /\
    (len s <= 50 -> echo = s) /\
    (50 < len s ->
     exists head tail, s = head ++ tail /\ len head = 50 /\ echo = head ++ "...") /\
    thoughts t' = (thoughts t ++ [it])%list /\ Thought it = s.
Proof.
  intros Hmu Hs.
  exists (tidyThought s), (mkThinkTool Unlocked (thoughts t ++ [mkThoughtItem s now])),
    (mkThoughtItem s now).
  split; [exact (run_Think_nonempty t now s Hmu Hs)|].
  split; [apply len_tidyThought|].
  split; [apply tidyThought_short|].
  split; [apply tidyThought_long|].
  split; reflexivity.
Qed.

Lemma Think_echo_in_bytes_witness :
  exists echo t' it,
    run "2025-06-01T12:00:00Z"
      (Think (think_params
         "0123456789012345678901234567890123456789012345678901234"))
      zero_ThinkTool
    = Returns (Some (mkResult [TextContent ("Thought: " ++ echo)]), None) t' /\
    len echo <= 53 /\
    (len "0123456789012345678901234567890123456789012345678901234" <= 50 ->
     echo = "0123456789012345678901234567890123456789012345678901234") /\
    (50 < len "0123456789012345678901234567890123456789012345678901234" ->
     exists head tail,
       "0123456789012345678901234567890123456789012345678901234" = head ++ tail /\
       len head = 50 /\ echo = head ++ "...") /\
    thoughts t' = ([] ++ [it])%list /\
    Thought it = "0123456789012345678901234567890123456789012345678901234".
Proof.
  apply (Think_echo_in_bytes zero_ThinkTool "2025-06-01T12:00:00Z"
           "0123456789012345678901234567890123456789012345678901234").
  - reflexivity.
  - discriminate.
Defined.

(** *** Cutting inside a character *)

Lemma utf8_scan_app (a b : string) :
  forall st, utf8_scan st (a ++ b) = utf8_scan (utf8_scan st a) b.
Proof. induction a as [|x a IH]; intro st; simpl; [reflexivity | apply IH]. Qed.

Lemma utf8_scan_None (s : string) : utf8_scan None s = None.
Proof. induction s as [|x s IH]; simpl; [reflexivity | exact IH]. Qed.

(** A continuation byte is only accepted inside a character. *)
Lemma utf8_next_continuation (b : ascii) :
  is_continuation b = true -> utf8_next (Some 0) b = None.
Proof.
  unfold is_continuation, utf8_next. intros H.
  apply andb_true_iff in H as [H1 H2].
  apply Nat.leb_le in H1. apply Nat.ltb_lt in H2.
  destruct (Nat.ltb_spec (nat_of_ascii b) 128); [lia|].
  destruct (Nat.ltb_spec (nat_of_ascii b) 194); [reflexivity | lia].
Qed.

(** A text cut in front of a continuation byte ends inside a character,
    and stays malformed whatever dots follow. *)
Lemma utf8_cut_before_continuation (head : string) (b : ascii) (rest : string) :
  utf8_complete (head ++ String b rest) = true ->
  is_continuation b = true ->
  utf8_complete head = false /\ utf8_complete (head ++ "...") = false.
Proof.
  unfold utf8_complete. rewrite !utf8_scan_app.
  change (utf8_scan (utf8_scan (Some 0) head) (String b rest))
    with (utf8_scan (utf8_next (utf8_scan (Some 0) head) b) rest).
  destruct (utf8_scan (Some 0) head) as [[|k]|]; intros Hs Hb.
  - rewrite (utf8_next_continuation b Hb), utf8_scan_None in Hs. discriminate.
  - split; reflexivity.
  - simpl utf8_next in Hs. rewrite utf8_scan_None in Hs. discriminate.
Qed.

(** C9. The threshold and the cut count bytes: a thought of more than 50
    bytes is echoed as its first 50 bytes and "...", while the stored entry
    keeps all of it.  When the byte after the cut is a continuation byte,
    that is when a character of several bytes lies across the cut, the echo
    ends its last character half way: it is no longer complete UTF-8. *)
Theorem Think_echo_cuts_bytes (t : ThinkTool) (now s : string) :
  mu t = Unlocked -> 50 < len s ->
  exists head tail t' it,
    s = head ++ tail /\ len head = 50 /\
    run now (Think (think_params s)) t
    = Returns (Some (mkResult [TextContent ("Thought: " ++ head ++ "...")]), None) t' /\
    thoughts t' = (thoughts t ++ [it])%list /\ Thought it = s /\
    (utf8_complete s = true ->
     (exists b rest, tail = String b rest /\ is_continuation b = true) ->
     utf8_complete head = false /\ utf8_complete (head ++ "...") = false).
Proof.
  intros Hmu Hlt.
  destruct (tidyThought_long s Hlt) as (head & tail & Heq & Hlen & Htidy).
  exists head, tail, (mkThinkTool Unlocked (thoughts t ++ [mkThoughtItem s now])),
    (mkThoughtItem s now).
  split; [exact Heq|]. split; [exact Hlen|].
  split.
  - rewrite <- Htidy. apply run_Think_nonempty; [exact Hmu|].
    apply len_nonempty. lia.
  - split; [reflexivity|]. split; [reflexivity|].
    intros Hs (b & rest & -> & Hb). subst s.
    exact (utf8_cut_before_continuation head b rest Hs Hb).
Qed.

Lemma Think_echo_cuts_bytes_witness :
  utf8_complete (repeat_string 17 euro) = true /\
  exists head tail t' it,
    repeat_string 17 euro = head ++ tail /\ len head = 50 /\
    run "2025-06-01T12:00:00Z" (Think (think_params (repeat_string 17 euro)))
      zero_ThinkTool
    = Returns (Some (mkResult [TextContent ("Thought: " ++ head ++ "...")]), None) t' /\
    thoughts t' = ([] ++ [it])%list /\ Thought it = repeat_string 17 euro /\
    (utf8_complete (repeat_string 17 euro) = true ->
     (exists b rest, tail = String b rest /\ is_continuation b = true) ->
     utf8_complete head = false /\ utf8_complete (head ++ "...") = false).
Proof.
  split; [reflexivity|].
  apply (Think_echo_cuts_bytes zero_ThinkTool "2025-06-01T12:00:00Z"
           (repeat_string 17 euro)).
  - reflexivity.
  - vm_compute. lia.
Defined.

(** ** Reading the thoughts back *)

(** C5. [GetThoughts] returns an error exactly when no thought is
    recorded, and the error then tells the caller to use the think tool
    first; so it does on the tool as [main] creates it.  With at least one
    thought recorded it returns a result and no error. *)
Theorem GetThoughts_error_iff_empty (t : ThinkTool) (now : string) :
  mu t = Unlocked ->
  ((exists e t', run now (GetThoughts no_params) t = Returns (None, Some e) t')
   <-> thoughts t = []) /\
  (thoughts t = [] ->
   run now (GetThoughts no_params) t
   = Returns (None, Some (errors_New
       "no thoughts recorded. Use the think tool to record a thought first.")) t) /\
  (thoughts t <> [] ->
   exists r, run now (GetThoughts no_params) t = Returns (Some r, None) t) /\
  run now (GetThoughts no_params) zero_ThinkTool
  = Returns (None, Some (errors_New
      "no thoughts recorded. Use the think tool to record a thought first."))
      zero_ThinkTool.
Proof.
  intros Hmu. split; [split|split; [|split]].
  - intros (e & t' & Hrun).
    destruct (thoughts t) as [|it l] eqn:Hl; [reflexivity|].
    rewrite run_GetThoughts_nonempty in Hrun by (auto; rewrite Hl; discriminate).
    discriminate.
  - intros Hl. eexists _, _. exact (run_GetThoughts_empty t now Hmu Hl).
  - exact (run_GetThoughts_empty t now Hmu).
  - intros Hl. eexists. exact (run_GetThoughts_nonempty t now Hmu Hl).
  - reflexivity.
Qed.

Lemma GetThoughts_error_iff_empty_witness :
  exists r,
    run "2025-06-01T12:00:00Z" (GetThoughts no_params)
      (mkThinkTool Unlocked [mkThoughtItem "first" "2025-06-01T11:59:00Z"])
    = Returns (Some r, None)
        (mkThinkTool Unlocked [mkThoughtItem "first" "2025-06-01T11:59:00Z"]).
Proof.
  apply (GetThoughts_error_iff_empty
           (mkThinkTool Unlocked [mkThoughtItem "first" "2025-06-01T11:59:00Z"])
           "2025-06-01T12:00:00Z").
  - reflexivity.
  - discriminate.
Defined.

(** C7. [GetThoughts] only reads: whether it returns the thoughts or the
    error, the tool after the call is the tool before it, thoughts and
    mutex alike. *)
Theorem GetThoughts_read_only (t : ThinkTool) (now : string) :
  mu t = Unlocked ->
  exists r, run now (GetThoughts no_params) t = Returns r t.
Proof.
  intros Hmu. destruct (thoughts t) as [|it l] eqn:Hl.
  - eexists. exact (run_GetThoughts_empty t now Hmu Hl).
  - eexists. apply (run_GetThoughts_nonempty t now Hmu). rewrite Hl. discriminate.
Qed.

Lemma GetThoughts_read_only_witness :
  exists r,
    run "2025-06-01T12:00:00Z" (GetThoughts no_params)
      (mkThinkTool Unlocked [mkThoughtItem "first" "2025-06-01T11:59:00Z"])
    = Returns r (mkThinkTool Unlocked [mkThoughtItem "first" "2025-06-01T11:59:00Z"]).
Proof.
  apply (GetThoughts_read_only
           (mkThinkTool Unlocked [mkThoughtItem "first" "2025-06-01T11:59:00Z"])
           "2025-06-01T12:00:00Z").
  reflexivity.
Defined.

(** C4. After [think] calls with non-empty thoughts c1..cn, made in that
    order on a tool without thoughts, [GetThoughts] returns a result whose
    text is n paragraphs joined by line feeds, and paragraph number k is
    "Thought #k at <clock reading of call k>:", a line feed, all of ck, and
    a line feed. *)
Theorem GetThoughts_in_order (calls : list (string * string)) (now : string) :
  calls <> [] -> Forall (fun c => fst c <> "") calls ->
  exists t paras,
    think_all calls zero_ThinkTool = Some t /\
    run now (GetThoughts no_params) t
    = Returns (Some (mkResult [TextContent (String.concat LF paras)]), None) t /\
    List.length paras = List.length calls /\
    forall k c ts, nth_error calls k = Some (c, ts) ->
      exists d,
        decimal_numeral d = Some (k + 1) /\
        nth_error paras k
        = Some ("Thought #" ++ d ++ " at " ++ ts ++ ":" ++ LF ++ c ++ LF).
Proof.
  intros Hne Hall.
  pose (items := map (fun c => mkThoughtItem (fst c) (snd c)) calls).
  destruct (range_thoughts_spec items 0 []) as (paras & Heq & Hlen & Hnth).
  exists (mkThinkTool Unlocked items), paras.
  split; [|split; [|split]].
  - exact (think_all_spec calls zero_ThinkTool eq_refl Hall).
  - rewrite run_GetThoughts_nonempty.
    + cbn [thoughts]. now rewrite Heq, strings_Join_concat.
    + reflexivity.
    + cbn [thoughts]. subst items. destruct calls; [now elim Hne | discriminate].
  - rewrite Hlen. apply length_map.
  - intros k c ts Hk.
    exists (fmt_d (k + 1)). split; [apply fmt_d_decimal|].
    rewrite (Hnth k (mkThoughtItem c ts)).
    + reflexivity.
    + subst items. rewrite nth_error_map, Hk. reflexivity.
Qed.

Lemma GetThoughts_in_order_witness :
  exists t paras,
    think_all [("a", "2025-06-01T12:00:00Z"); ("b", "2025-06-01T12:00:01Z")]
      zero_ThinkTool = Some t /\
    run "2025-06-01T12:00:02Z" (GetThoughts no_params) t
    = Returns (Some (mkResult [TextContent (String.concat LF paras)]), None) t /\
    List.length paras = 2 /\
    forall k c ts,
      nth_error [("a", "2025-06-01T12:00:00Z"); ("b", "2025-06-01T12:00:01Z")] k
      = Some (c, ts) ->
      exists d,
        decimal_numeral d = Some (k + 1) /\
        nth_error paras k
        = Some ("Thought #" ++ d ++ " at " ++ ts ++ ":" ++ LF ++ c ++ LF).
Proof.
  apply (GetThoughts_in_order
           [("a", "2025-06-01T12:00:00Z"); ("b", "2025-06-01T12:00:01Z")]
           "2025-06-01T12:00:02Z").
  - discriminate.
  - repeat constructor; discriminate.
Defined.

(** ** Clearing *)

(** C6. [ClearThoughts] always returns the text "Thoughts cleared." and no
    error, and leaves the tool without thoughts; a second call right after
    does the same and changes nothing. *)
Theorem ClearThoughts_idempotent (t : ThinkTool) (now now' : string) :
  mu t = Unlocked ->
  exists t',
    run now (ClearThoughts no_params) t
    = Returns (Some (mkResult [TextContent "Thoughts cleared."]), None) t' /\
    thoughts t' = [] /\ mu t' = Unlocked /\
    run now' (ClearThoughts no_params) t'
    = Returns (Some (mkResult [TextContent "Thoughts cleared."]), None) t' /\
    List.length (thoughts t') = 0.
Proof.
  intros Hmu. exists zero_ThinkTool.
  split; [exact (run_ClearThoughts t now Hmu)|].
  repeat split; reflexivity.
Qed.

Lemma ClearThoughts_idempotent_witness :
  exists t',
    run "2025-06-01T12:00:00Z" (ClearThoughts no_params)
      (mkThinkTool Unlocked [mkThoughtItem "first" "2025-06-01T11:59:00Z"])
    = Returns (Some (mkResult [TextContent "Thoughts cleared."]), None) t' /\
    thoughts t' = [] /\ mu t' = Unlocked /\
    run "2025-06-01T12:00:01Z" (ClearThoughts no_params) t'
    = Returns (Some (mkResult [TextContent "Thoughts cleared."]), None) t' /\
    List.length (thoughts t') = 0.
Proof.
  apply (ClearThoughts_idempotent
           (mkThinkTool Unlocked [mkThoughtItem "first" "2025-06-01T11:59:00Z"])).
  reflexivity.
Defined.

(** ** Concurrent [think] calls *)

(** The function [sched_exec] follows the relation [steps]. *)
Lemma instr_exec_step {A : Type} (now : string) (t t' : ThinkTool) (p p' : Prog A) :
  instr_exec now t p = Some (t', p') -> instr_step t p t' p'.
Proof.
  destruct p; simpl; try discriminate.
  - destruct (mu t) eqn:Hmu; [|discriminate].
    intros H; injection H as <- <-. now constructor.
  - destruct (mu t) eqn:Hmu; [discriminate|].
    intros H; injection H as <- <-. now constructor.
  - intros H; injection H as <- <-. constructor.
  - intros H; injection H as <- <-. constructor.
  - intros H; injection H as <- <-. constructor.
Qed.

Lemma pool_exec_step (now : string) (t : ThinkTool) (g : list (Prog HandlerResult)) :
  forall i c', pool_exec now i t g = Some c' -> sched_step (t, g) c'.
Proof.
  induction g as [|p rest IH]; intros i c' H; [destruct i; discriminate|].
  destruct i as [|j]; simpl in H.
  - destruct (instr_exec now t p) as [[t' p']|] eqn:Hp; [|discriminate].
    injection H as <-. apply instr_exec_step in Hp.
    exact (sched_pick t t' p p' [] rest Hp).
  - destruct (pool_exec now j t rest) as [[t' rest']|] eqn:Hr; [|discriminate].
    injection H as <-. apply IH in Hr. inversion Hr; subst.
    exact (sched_pick t t' _ _ (p :: _) _ ltac:(eassumption)).
Qed.

Lemma steps_cons (n : nat) (c1 c2 c3 : Config) :
  sched_step c1 c2 -> steps n c2 c3 -> steps (S n) c1 c3.
Proof.
  intros H12 H23. induction H23 as [c|n c c' c'' _ IH Hlast].
  - exact (steps_S 0 c1 c1 c (steps_O c1) H12).
  - exact (steps_S (S n) c1 c' c'' (IH H12) Hlast).
Qed.

Lemma sched_exec_steps (schedule : list (nat * string)) :
  forall c c', sched_exec schedule c = Some c' ->
  steps (List.length schedule) c c'.
Proof.
  induction schedule as [|[i now] rest IH]; intros c c' H; simpl in H.
  - injection H as <-. constructor.
  - destruct c as [t g]. simpl in H.
    destruct (pool_exec now i t g) as [c1|] eqn:Hp; [|discriminate].
    exact (steps_cons _ _ _ _ (pool_exec_step now t g i c1 Hp) (IH c1 c' H)).
Qed.

(** A call that returns when run alone is an execution of the pool that
    holds only this call: the two semantics agree. *)
Lemma run_alone_steps (now : string) (p : Prog HandlerResult) :
  forall t r t', run now p t = Returns r t' ->
  exists n, steps n (t, [p]) (t', [Ret r]).
Proof.
  induction p as [a|k IH|k IH|k IH|l k IH|k IH]; intros t r t' Hrun; simpl in Hrun.
  - injection Hrun as <- <-. exists 0. constructor.
  - destruct (mu t) eqn:Hmu; [|discriminate].
    destruct (IH _ _ _ Hrun) as (n & Hn). exists (S n).
    refine (steps_cons _ _ _ _ _ Hn).
    exact (sched_pick t _ _ _ [] [] (step_lock t k Hmu)).
  - destruct (mu t) eqn:Hmu; [discriminate|].
    destruct (IH _ _ _ Hrun) as (n & Hn). exists (S n).
    refine (steps_cons _ _ _ _ _ Hn).
    exact (sched_pick t _ _ _ [] [] (step_unlock t k Hmu)).
  - destruct (IH _ _ _ _ Hrun) as (n & Hn). exists (S n).
    refine (steps_cons _ _ _ _ _ Hn).
    exact (sched_pick t _ _ _ [] [] (step_load t k)).
  - destruct (IH _ _ _ Hrun) as (n & Hn). exists (S n).
    refine (steps_cons _ _ _ _ _ Hn).
    exact (sched_pick t _ _ _ [] [] (step_store t l k)).
  - destruct (IH _ _ _ _ Hrun) as (n & Hn). exists (S n).
    refine (steps_cons _ _ _ _ _ Hn).
    exact (sched_pick t _ _ _ [] [] (step_now t k now)).
Qed.

(** A [think] call with a non-empty thought starts at [NotStarted]. *)
Lemma Think_at_phase (s : string) :
  s <> "" -> Think (think_params s) = at_phase s NotStarted.
Proof. destruct s as [|a s]; [intros H; now elim H | reflexivity]. Qed.

(** What the mutex is for: two calls that were both let into the critical
    section can read the same slice, and the second store then drops the
    thought of the first. *)
Example lost_store_inside_together :
  sched_exec
    [(0, ""); (1, ""); (0, "2025-06-01T12:00:00Z"); (1, "2025-06-01T12:00:01Z");
     (0, ""); (1, "")]
    (mkThinkTool Locked [], [at_phase "a" Holding; at_phase "b" Holding])
  = Some (mkThinkTool Locked [mkThoughtItem "b" "2025-06-01T12:00:01Z"],
          [at_phase "a" Written; at_phase "b" Written]).
Proof. reflexivity. Qed.

(** *** Counting over the pool *)

Lemma holders_app (a b : list (string * phase)) :
  holders (a ++ b) = holders a + holders b.
Proof. unfold holders. now rewrite map_app, list_sum_app. Qed.

Lemma holders_cons (th : string * phase) (b : list (string * phase)) :
  holders (th :: b) = holds_mu (snd th) + holders b.
Proof. reflexivity. Qed.

Lemma progress_app (a b : list (string * phase)) :
  progress (a ++ b) = progress a + progress b.
Proof. unfold progress. now rewrite map_app, list_sum_app. Qed.

Lemma progress_cons (th : string * phase) (b : list (string * phase)) :
  progress (th :: b) = phase_index (snd th) + progress b.
Proof. reflexivity. Qed.

Lemma committed_app (a b : list (string * phase)) :
  committed (a ++ b) = (committed a ++ committed b)%list.
Proof.
  induction a as [|[s ph] a IH]; simpl; [reflexivity|].
  destruct ph; simpl; now rewrite IH.
Qed.

Lemma phase_index_le (ph : phase) : phase_index ph <= 5.
Proof. destruct ph; simpl; lia. Qed.

Lemma progress_le (ths : list (string * phase)) :
  progress ths <= 5 * List.length ths.
Proof.
  induction ths as [|th ths IH]; [cbv; lia|].
  rewrite progress_cons. pose proof (phase_index_le (snd th)).
  change (List.length (th :: ths)) with (S (List.length ths)). lia.
Qed.

(** A pool that has executed all its instructions has only returned calls. *)
Lemma progress_full (ths : list (string * phase)) :
  progress ths = 5 * List.length ths ->
  Forall (fun th => snd th = Finished) ths.
Proof.
  induction ths as [|[s ph] ths IH]; intros H; constructor.
  - rewrite progress_cons in H. pose proof (progress_le ths).
    simpl in *. destruct ph; simpl in *; try lia. reflexivity.
  - apply IH. rewrite progress_cons in H. pose proof (progress_le ths).
    pose proof (phase_index_le ph). simpl in *. lia.
Qed.

(** A pool with instructions left has a call that has not returned. *)
Lemma progress_unfinished (ths : list (string * phase)) :
  progress ths < 5 * List.length ths ->
  exists ths1 s ph ths2,
    ths = (ths1 ++ (s, ph) :: ths2)%list /\ ph <> Finished.
Proof.
  induction ths as [|[s ph] ths IH]; intros H; [cbv in H; lia|].
  destruct ph eqn:Hph;
    try (exists [], s, ph, ths; subst ph; split; [reflexivity | discriminate]).
  rewrite progress_cons in H. simpl in H.
  destruct IH as (ths1 & s' & ph' & ths2 & -> & Hne); [lia|].
  exists ((s, Finished) :: ths1), s', ph', ths2. split; [reflexivity | exact Hne].
Qed.

Lemma holders_some (ths : list (string * phase)) :
  1 <= holders ths ->
  exists ths1 s ph ths2,
    ths = (ths1 ++ (s, ph) :: ths2)%list /\ holds_mu ph = 1.
Proof.
  induction ths as [|[s ph] ths IH]; intros H; [cbv in H; lia|].
  destruct (holds_mu ph) eqn:Hph.
  - rewrite holders_cons in H. simpl in H. rewrite Hph in H.
    destruct IH as (ths1 & s' & ph' & ths2 & -> & Hh); [lia|].
    exists ((s, ph) :: ths1), s', ph', ths2. split; [reflexivity | exact Hh].
  - exists [], s, ph, ths. split; [reflexivity|].
    destruct ph; simpl in *; congruence.
Qed.

(** Goroutines outside the critical section hold no copy of the slice. *)
Lemma fresh_read_outside (t t' : ThinkTool) (ths : list (string * phase)) :
  holders ths = 0 ->
  Forall (fun th => fresh_read t' (snd th)) ths.
Proof.
  induction ths as [|[s ph] ths IH]; intros H; constructor.
  - rewrite holders_cons in H. destruct ph; simpl in *; try lia; exact I.
  - apply IH. rewrite holders_cons in H. lia.
Qed.

Lemma fresh_read_same (t t' : ThinkTool) (ths : list (string * phase)) :
  thoughts t' = thoughts t ->
  Forall (fun th => fresh_read t (snd th)) ths ->
  Forall (fun th => fresh_read t' (snd th)) ths.
Proof.
  intros Heq. apply Forall_impl. intros [s ph]. simpl.
  destruct ph; simpl; congruence.
Qed.

(** *** The invariant *)

Section ThinkInvariant.

Variable cs : list string.
Variable init : list ThoughtItem.
Hypothesis cs_nonempty : Forall (fun s => s <> "") cs.

Lemma think_inv_start :
  think_inv cs init 0
    (mkThinkTool Unlocked init, map (fun s => Think (think_params s)) cs).
Proof.
  exists (map (fun s => (s, NotStarted)) cs), [].
  cbn [fst snd mu thoughts mu_count].
  repeat split.
  - unfold pool_of. rewrite map_map. apply map_ext_Forall.
    revert cs_nonempty. apply Forall_impl. intros s Hs. exact (Think_at_phase s Hs).
  - rewrite map_map. apply map_id.
  - unfold progress. rewrite map_map. simpl. clear. induction cs; simpl; auto.
  - unfold holders. rewrite map_map. simpl. clear. induction cs; simpl; auto.
  - apply Forall_map. apply Forall_forall. intros; exact I.
  - now rewrite app_nil_r.
  - clear. induction cs; simpl; auto.
Qed.

(** Every instruction of every goroutine keeps the invariant. *)
Lemma think_inv_step (n : nat) (c c' : Config) :
  think_inv cs init n c -> sched_step c c' -> think_inv cs init (S n) c'.
Proof.
  intros (ths & added & Hpool & Hcs & Hprog & Hhold & Hfresh & Hth & Hperm) Hstep.
  destruct Hstep as [t t' p p' g1 g2 Hp]. cbn [fst snd] in *.
  symmetry in Hpool. unfold pool_of in Hpool.
  apply map_eq_app in Hpool as (ths1 & ths' & -> & Hg1 & Hpool).
  apply map_eq_cons in Hpool as ([s ph] & ths2 & -> & Hph & Hg2).
  cbn [fst snd] in Hph. subst g1 g2 p.
  rewrite holders_app, holders_cons in Hhold.
  rewrite progress_app, progress_cons in Hprog.
  rewrite committed_app in Hperm.
  apply Forall_app in Hfresh as [Hf1 Hf2].
  apply Forall_cons_iff in Hf2 as [Hf Hf2].
  cbn [fst snd] in *.
  revert Hcs Hprog.
  destruct ph; cbn [at_phase] in Hp; inversion Hp; subst; clear Hp;
    intros Hcs Hprog.
  - (* Lock *)
    exists (ths1 ++ (s, Holding) :: ths2)%list, added.
    cbn [fst snd mu thoughts].
    match goal with H : mu t = Unlocked |- _ => rewrite H in Hhold end.
    simpl in Hhold, Hprog.
    repeat split.
    + unfold pool_of. now rewrite map_app.
    + rewrite <- Hcs, !map_app. reflexivity.
    + rewrite progress_app, progress_cons. simpl. lia.
    + rewrite holders_app, holders_cons. simpl. lia.
    + apply Forall_app; split; [|constructor; [exact I|]];
        eapply fresh_read_same; eauto.
    + exact Hth.
    + rewrite committed_app. exact Hperm.
  - (* the read of t.thoughts *)
    exists (ths1 ++ (s, HasRead (thoughts t')) :: ths2)%list, added.
    cbn [fst snd]. simpl in Hhold, Hprog.
    repeat split.
    + unfold pool_of. now rewrite map_app.
    + rewrite <- Hcs, !map_app. reflexivity.
    + rewrite progress_app, progress_cons. simpl. lia.
    + rewrite holders_app, holders_cons. simpl. lia.
    + apply Forall_app; split; [|constructor; [reflexivity|]]; assumption.
    + exact Hth.
    + rewrite committed_app. exact Hperm.
  - (* the clock *)
    exists (ths1 ++ (s, HasTime old now) :: ths2)%list, added.
    cbn [fst snd]. simpl in Hhold, Hprog, Hf.
    repeat split.
    + unfold pool_of. now rewrite map_app.
    + rewrite <- Hcs, !map_app. reflexivity.
    + rewrite progress_app, progress_cons. simpl. lia.
    + rewrite holders_app, holders_cons. simpl. lia.
    + apply Forall_app; split; [|constructor; [exact Hf|]]; assumption.
    + exact Hth.
    + rewrite committed_app. exact Hperm.
  - (* the store to t.thoughts *)
    exists (ths1 ++ (s, Written) :: ths2)%list, (added ++ [mkThoughtItem s now])%list.
    cbn [fst snd mu thoughts]. simpl in Hhold, Hprog, Hf.
    assert (Hm : mu_count (mu t) <= 1) by (destruct (mu t); simpl; lia).
    repeat split.
    + unfold pool_of. now rewrite map_app.
    + rewrite <- Hcs, !map_app. reflexivity.
    + rewrite progress_app, progress_cons. simpl. lia.
    + rewrite holders_app, holders_cons. simpl. lia.
    + apply Forall_app; split; [|constructor; [exact I|]];
        apply (fresh_read_outside t); lia.
    + rewrite Hf, Hth. now rewrite app_assoc.
    + rewrite committed_app, map_app. cbn [committed map Thought] in Hperm |- *.
      apply Permutation_trans with (s :: map Thought added).
      * apply Permutation_sym, Permutation_cons_append.
      * apply Permutation_cons_app. exact Hperm.
  - (* Unlock *)
    exists (ths1 ++ (s, Finished) :: ths2)%list, added.
    cbn [fst snd mu thoughts].
    match goal with H : mu t = Locked |- _ => rewrite H in Hhold end.
    simpl in Hhold, Hprog.
    repeat split.
    + unfold pool_of. now rewrite map_app.
    + rewrite <- Hcs, !map_app. reflexivity.
    + rewrite progress_app, progress_cons. simpl. lia.
    + rewrite holders_app, holders_cons. simpl. lia.
    + apply Forall_app; split; [|constructor; [exact I|]];
        eapply fresh_read_same; eauto.
    + exact Hth.
    + rewrite committed_app. exact Hperm.
Qed.

Lemma think_inv_steps (n : nat) (c : Config) :
  steps n (mkThinkTool Unlocked init, map (fun s => Think (think_params s)) cs) c ->
  think_inv cs init n c.
Proof.
  remember (mkThinkTool Unlocked init, map (fun s => Think (think_params s)) cs)
    as c0 eqn:Hc0.
  induction 1 as [c|n c c' c'' _ IH Hstep].
  - subst c. exact think_inv_start.
  - exact (think_inv_step n c' c'' (IH Hc0) Hstep).
Qed.

End ThinkInvariant.

(** Never a deadlock: while instructions are left, some goroutine has a
    step, either the holder of the mutex or, when it is free, one that has
    not locked yet. *)
Lemma think_inv_progress (cs : list string) (init : list ThoughtItem)
  (n : nat) (c : Config) :
  think_inv cs init n c -> n < 5 * List.length cs ->
  exists c', sched_step c c'.
Proof.
  intros (ths & added & Hpool & Hcs & Hprog & Hhold & _) Hn.
  destruct c as [t g]. cbn [fst snd] in *. subst g.
  assert (Hlen : List.length cs = List.length ths)
    by (rewrite <- Hcs; apply length_map).
  destruct (mu t) eqn:Hmu; cbn [mu_count] in Hhold.
  - destruct (progress_unfinished ths) as (ths1 & s & ph & ths2 & -> & Hne); [lia|].
    rewrite holders_app, holders_cons in Hhold. cbn [snd] in Hhold.
    unfold pool_of. rewrite map_app. cbn [map fst snd].
    destruct ph; simpl in Hhold; try lia; [|now elim Hne].
    eexists. apply sched_pick. cbn [at_phase]. now apply step_lock.
  - destruct (holders_some ths) as (ths1 & s & ph & ths2 & -> & Hh); [lia|].
    unfold pool_of. rewrite map_app. cbn [map fst snd].
    destruct ph; simpl in Hh; try discriminate;
      eexists; apply sched_pick; cbn [at_phase].
    + apply step_load.
    + apply (step_now t _ "").
    + apply step_store.
    + now apply step_unlock.
Qed.

Lemma think_inv_bound (cs : list string) (init : list ThoughtItem)
  (n : nat) (c : Config) :
  think_inv cs init n c -> n <= 5 * List.length cs.
Proof.
  intros (ths & added & _ & Hcs & Hprog & _).
  rewrite <- Hcs, length_map, <- Hprog. apply progress_le.
Qed.

Lemma all_finished (ths : list (string * phase)) :
  Forall (fun th => snd th = Finished) ths ->
  pool_of ths
  = map (fun s => Ret (text_result ("Thought: " ++ tidyThought s))) (map fst ths) /\
  holders ths = 0 /\ committed ths = map fst ths.
Proof.
  induction 1 as [|[s ph] ths Hph _ (IH1 & IH2 & IH3)]; [repeat split|].
  cbn [snd] in Hph. subst ph.
  rewrite holders_cons. cbn [pool_of map fst snd at_phase committed holds_mu].
  fold (pool_of ths). rewrite IH1, IH2, IH3. repeat split.
Qed.

(** Once all instructions are executed, every call has returned its
    acknowledgement, the mutex is free, and the tool holds what it held
    before, followed by the new thoughts in the order they were stored. *)
Lemma think_inv_final (cs : list string) (init : list ThoughtItem) (c : Config) :
  think_inv cs init (5 * List.length cs) c ->
  snd c = map (fun s => Ret (text_result ("Thought: " ++ tidyThought s))) cs /\
  mu (fst c) = Unlocked /\
  exists added,
    thoughts (fst c) = (init ++ added)%list /\
    Permutation (map Thought added) cs.
Proof.
  intros (ths & added & Hpool & Hcs & Hprog & Hhold & _ & Hth & Hperm).
  assert (Hfin : Forall (fun th => snd th = Finished) ths).
  { apply progress_full. rewrite Hprog, <- Hcs, length_map. reflexivity. }
  destruct (all_finished ths Hfin) as (Hp & Hh & Hc).
  rewrite Hcs in Hp. rewrite Hc, Hcs in Hperm. rewrite Hh in Hhold.
  split; [now rewrite Hpool|]. split.
  - destruct (mu (fst c)); [reflexivity | discriminate].
  - exists added. auto.
Qed.

(** Each value of a list without repetition sits at one index only. *)
Lemma NoDup_map_index {A B : Type} (f : A -> B) (l : list A) (y : B) :
  NoDup (map f l) -> In y (map f l) ->
  exists k x,
    nth_error l k = Some x /\ f x = y /\
    forall k' x', nth_error l k' = Some x' -> f x' = y -> k' = k.
Proof.
  intros Hnd Hin.
  apply In_nth_error in Hin as (k & Hk).
  pose proof Hk as Hk'. rewrite nth_error_map in Hk'.
  destruct (nth_error l k) as [x|] eqn:Hx; [|discriminate].
  injection Hk' as Hfx.
  exists k, x. split; [exact Hx|]. split; [exact Hfx|].
  intros k' x' Hx' Hfx'.
  apply (proj1 (NoDup_nth_error (map f l)) Hnd).
  - apply nth_error_Some. rewrite nth_error_map, Hx'. discriminate.
  - rewrite Hk, nth_error_map, Hx'. simpl. now rewrite Hfx'.
Qed.

(** C8. Goroutines run the [think] calls of pairwise distinct non-empty
    thoughts [cs] on a fresh tool, interleaved instruction by instruction in
    any way the mutex allows.  Every execution has at most five instructions
    per call; as long as it has fewer, some goroutine can step; and when it
    has that many, nothing is left to run: every call has returned its
    acknowledgement once, the tool holds as many entries as there were calls,
    their thoughts are [cs] in some order, each exactly once, and a
    [GetThoughts] call then shows each thought in exactly one paragraph. *)
Theorem Think_concurrent (cs : list string) (n : nat) (c : Config) (now : string) :
  NoDup cs -> Forall (fun s => s <> "") cs ->
  steps n (zero_ThinkTool, map (fun s => Think (think_params s)) cs) c ->
  n <= 5 * List.length cs /\
  (n < 5 * List.length cs -> exists c', sched_step c c') /\
  (n = 5 * List.length cs ->
   (forall c', ~ sched_step c c') /\
   snd c
   = map (fun s =>
            Ret (Some (mkResult [TextContent ("Thought: " ++ tidyThought s)]), None))
       cs /\
   mu (fst c) = Unlocked /\
   List.length (thoughts (fst c)) = List.length cs /\
   Permutation (map Thought (thoughts (fst c))) cs /\
   (forall s, In s cs ->
      count_occ string_dec (map Thought (thoughts (fst c))) s = 1) /\
   (cs <> [] ->
    exists paras,
      run now (GetThoughts no_params) (fst c)
      = Returns (Some (mkResult [TextContent (String.concat LF paras)]), None) (fst c) /\
      List.length paras = List.length cs /\
      forall s, In s cs ->
        exists k it d,
          nth_error (thoughts (fst c)) k = Some it /\ Thought it = s /\
          decimal_numeral d = Some (k + 1) /\
          nth_error paras k
          = Some ("Thought #" ++ d ++ " at " ++ CreatedAt it ++ ":"
                    ++ LF ++ s ++ LF) /\
          forall k' it',
            nth_error (thoughts (fst c)) k' = Some it' -> Thought it' = s ->
            k' = k)).
Proof.
  intros Hnd Hne Hsteps.
  pose proof (think_inv_steps cs [] Hne n c Hsteps) as Hinv.
  split; [exact (think_inv_bound cs [] n c Hinv)|].
  split; [exact (think_inv_progress cs [] n c Hinv)|].
  intros ->.
  destruct (think_inv_final cs [] c Hinv) as (Hpool & Hmu & added & Hth & Hperm).
  cbn [app] in Hth. rewrite <- Hth in Hperm. clear added Hth.
  assert (Hnd' : NoDup (map Thought (thoughts (fst c))))
    by (apply (Permutation_NoDup (Permutation_sym Hperm) Hnd)).
  assert (Hin : forall s, In s cs -> In s (map Thought (thoughts (fst c))))
    by (intros s; apply Permutation_in, Permutation_sym, Hperm).
  assert (Hlen : List.length (thoughts (fst c)) = List.length cs)
    by (rewrite <- (Permutation_length Hperm); symmetry; apply length_map).
  split.
  { intros c' Hstep.
    pose proof (think_inv_bound cs [] _ c'
                  (think_inv_step cs [] _ c c' Hinv Hstep)). lia. }
  split; [exact Hpool|]. split; [exact Hmu|]. split; [exact Hlen|].
  split; [exact Hperm|]. split.
  { intros s Hs. apply NoDup_count_occ'; auto. }
  intros Hcs.
  destruct (range_thoughts_spec (thoughts (fst c)) 0 []) as (paras & Heq & Hpl & Hnth).
  exists paras. split; [|split].
  - rewrite run_GetThoughts_nonempty.
    + now rewrite Heq, strings_Join_concat.
    + exact Hmu.
    + intros Hnil. rewrite Hnil in Hlen. destruct cs; [now elim Hcs | discriminate].
  - now rewrite Hpl.
  - intros s Hs.
    destruct (NoDup_map_index Thought (thoughts (fst c)) s Hnd' (Hin s Hs))
      as (k & it & Hk & Hit & Huniq).
    exists k, it, (fmt_d (k + 1)).
    split; [exact Hk|]. split; [exact Hit|]. split; [apply fmt_d_decimal|].
    split; [|exact Huniq].
    rewrite (Hnth k it Hk), <- Hit. reflexivity.
Qed.

Lemma Think_concurrent_witness :
  sched_exec
    [(1, ""); (1, ""); (1, "2025-06-01T12:00:00Z"); (1, ""); (1, "");
     (0, ""); (0, ""); (0, "2025-06-01T12:00:01Z"); (0, ""); (0, "")]
    (zero_ThinkTool, map (fun s => Think (think_params s)) ["a"; "b"])
  = Some (mkThinkTool Unlocked
            [mkThoughtItem "b" "2025-06-01T12:00:00Z";
             mkThoughtItem "a" "2025-06-01T12:00:01Z"],
          [Ret (Some (mkResult [TextContent "Thought: a"]), None);
           Ret (Some (mkResult [TextContent "Thought: b"]), None)]) /\
  Permutation ["b"; "a"] ["a"; "b"].
Proof.
  split; [reflexivity|].
  apply (Think_concurrent ["a"; "b"] 10
           (mkThinkTool Unlocked
              [mkThoughtItem "b" "2025-06-01T12:00:00Z";
               mkThoughtItem "a" "2025-06-01T12:00:01Z"],
            [Ret (Some (mkResult [TextContent "Thought: a"]), None);
             Ret (Some (mkResult [TextContent "Thought: b"]), None)])
           "2025-06-01T12:00:02Z").
  - repeat constructor; simpl; intuition discriminate.
  - repeat constructor; discriminate.
  - apply (sched_exec_steps
      [(1, ""); (1, ""); (1, "2025-06-01T12:00:00Z"); (1, ""); (1, "");
       (0, ""); (0, ""); (0, "2025-06-01T12:00:01Z"); (0, ""); (0, "")]).
    reflexivity.
  - reflexivity.
Defined.

(** * Beyond single calls *)

(** ** Calls one after the other *)

Lemma handler_cases (c : call) (t : ThinkTool) (now : string) :
  mu t = Unlocked ->
  exists r l,
    run now (handler c) t = Returns r (mkThinkTool Unlocked l) /\
    ((exists res, r = (Some res, None)) \/ (exists e, r = (None, Some e))) /\
    map Thought l = replay [c] (map Thought (thoughts t)) /\
    (Forall (fun it => Thought it <> "") (thoughts t) ->
     Forall (fun it => Thought it <> "") l).
Proof.
  intros Hmu. destruct c as [s| |]; cbn [handler replay].
  - destruct s as [|a s].
    + exists (None, Some (errors_New "no thoughts provided")), (thoughts t).
      rewrite run_Think_empty by exact Hmu.
      destruct t as [m l]; simpl in *; subst. repeat split; eauto.
    + eexists _, _. rewrite run_Think_nonempty by (auto; discriminate).
      split; [reflexivity|]. split; [left; eexists; reflexivity|].
      split; [now rewrite map_app|].
      intros H. apply Forall_app. split; [exact H|].
      constructor; [discriminate | constructor].
  - destruct (thoughts t) as [|it l] eqn:Hl.
    + eexists _, []. rewrite run_GetThoughts_empty by auto.
      destruct t as [m l]; simpl in *; subst. repeat split; eauto.
    + eexists _, (it :: l).
      rewrite run_GetThoughts_nonempty by (auto; rewrite Hl; discriminate).
      destruct t as [m l']; simpl in *; subst. repeat split; eauto.
      left. eexists. reflexivity.
  - eexists _, []. rewrite run_ClearThoughts by exact Hmu.
    repeat split; eauto. left. eexists. reflexivity.
Qed.

(** X1. Every call of every tool on a free mutex returns; it leaves the
    mutex free again, on the error path as on the other; and it returns
    either a result and a [nil] error or a [nil] result and an error,
    never both and never neither. *)
Theorem handler_returns_and_unlocks (c : call) (t : ThinkTool) (now : string) :
  mu t = Unlocked ->
  exists r t',
    run now (handler c) t = Returns r t' /\
    mu t' = Unlocked /\
    ((exists res, r = (Some res, None)) \/ (exists e, r = (None, Some e))).
Proof.
  intros Hmu.
  destruct (handler_cases c t now Hmu) as (r & l & Hrun & Hr & _).
  exists r, (mkThinkTool Unlocked l). auto.
Qed.

Lemma handler_returns_and_unlocks_witness :
  exists r t',
    run "2025-06-01T12:00:00Z" (handler (CallThink "")) zero_ThinkTool
    = Returns r t' /\
    mu t' = Unlocked /\
    ((exists res, r = (Some res, None)) \/ (exists e, r = (None, Some e))).
Proof.
  apply (handler_returns_and_unlocks (CallThink "") zero_ThinkTool
           "2025-06-01T12:00:00Z").
  reflexivity.
Defined.

Lemma replay_app (a b : list call) :
  forall held, replay (a ++ b) held = replay b (replay a held).
Proof.
  induction a as [|c a IH]; intros held; [reflexivity|].
  destruct c; simpl; apply IH.
Qed.

Lemma serial_calls_replay (t : ThinkTool) (hist : list (call * HandlerResult))
  (t' : ThinkTool) :
  serial_calls t hist t' -> mu t = Unlocked ->
  mu t' = Unlocked /\
  map Thought (thoughts t') = replay (map fst hist) (map Thought (thoughts t)) /\
  (Forall (fun it => Thought it <> "") (thoughts t) ->
   Forall (fun it => Thought it <> "") (thoughts t')).
Proof.
  induction 1 as [t|t c r now t1 rest t' Hrun _ IH]; intros Hmu.
  - repeat split; auto.
  - destruct (handler_cases c t now Hmu) as (r' & l & Hrun' & _ & Hrep & Hne).
    rewrite Hrun' in Hrun. injection Hrun as <- <-.
    destruct (IH eq_refl) as (Hmu' & Hrep' & Hne').
    split; [exact Hmu'|]. split.
    + cbn [map fst thoughts] in *. rewrite Hrep', Hrep.
      change (c :: map fst rest) with ([c] ++ map fst rest)%list.
      now rewrite replay_app.
    + intros H. apply Hne', Hne, H.
Qed.

(** X2. Whatever calls are made one after the other on the tool of
    [main], the thoughts it then holds are exactly the non-empty thoughts
    submitted since the last [clear_thoughts], in the order of the calls;
    in particular no stored thought is ever empty. *)
Theorem thoughts_after_calls (hist : list (call * HandlerResult)) (t : ThinkTool) :
  serial_calls zero_ThinkTool hist t ->
  map Thought (thoughts t) = replay (map fst hist) [] /\
  Forall (fun it => Thought it <> "") (thoughts t) /\
  mu t = Unlocked.
Proof.
  intros H.
  destruct (serial_calls_replay _ _ _ H eq_refl) as (Hmu & Hrep & Hne).
  split; [exact Hrep|]. split; [apply Hne; constructor | exact Hmu].
Qed.

Lemma thoughts_after_calls_witness :
  map Thought
    (thoughts (mkThinkTool Unlocked [mkThoughtItem "b" "2025-06-01T12:00:03Z"]))
  = ["b"] /\
  Forall (fun it => Thought it <> "")
    (thoughts (mkThinkTool Unlocked [mkThoughtItem "b" "2025-06-01T12:00:03Z"])) /\
  mu (mkThinkTool Unlocked [mkThoughtItem "b" "2025-06-01T12:00:03Z"]) = Unlocked.
Proof.
  apply (thoughts_after_calls
    [(CallThink "a", text_result "Thought: a");
     (CallThink "", (None, Some (errors_New "no thoughts provided")));
     (CallClearThoughts, text_result "Thoughts cleared.");
     (CallThink "b", text_result "Thought: b")]).
  eapply serial_calls_cons with (now := "2025-06-01T12:00:00Z");
    [reflexivity|].
  eapply serial_calls_cons with (now := "2025-06-01T12:00:01Z");
    [reflexivity|].
  eapply serial_calls_cons with (now := "2025-06-01T12:00:02Z");
    [reflexivity|].
  eapply serial_calls_cons with (now := "2025-06-01T12:00:03Z");
    [reflexivity|].
  apply serial_calls_nil.
Defined.

(** X3. After [ClearThoughts], whatever the tool held, [GetThoughts] returns
    the error of the empty notebook; and after one more [Think] with a
    non-empty thought it shows that thought alone, as "Thought #1". *)
Theorem ClearThoughts_starts_afresh (t : ThinkTool) (now1 now2 now3 now4 s : string) :
  mu t = Unlocked -> s <> "" ->
  exists t1 t2,
    run now1 (ClearThoughts no_params) t
    = Returns (Some (mkResult [TextContent "Thoughts cleared."]), None) t1 /\
    run now2 (GetThoughts no_params) t1
    = Returns (None, Some (errors_New
        "no thoughts recorded. Use the think tool to record a thought first.")) t1 /\
    run now3 (Think (think_params s)) t1
    = Returns (Some (mkResult [TextContent ("Thought: " ++ tidyThought s)]), None) t2 /\
    run now4 (GetThoughts no_params) t2
    = Returns
        (Some (mkResult
           [TextContent ("Thought #1 at " ++ now3 ++ ":" ++ LF ++ s ++ LF)]), None)
        t2.
Proof.
  intros Hmu Hs.
  exists zero_ThinkTool, (mkThinkTool Unlocked [mkThoughtItem s now3]).
  split; [exact (run_ClearThoughts t now1 Hmu)|].
  split; [reflexivity|].
  split; [exact (run_Think_nonempty zero_ThinkTool now3 s eq_refl Hs)|].
  rewrite run_GetThoughts_nonempty by (auto; discriminate).
  reflexivity.
Qed.

Lemma ClearThoughts_starts_afresh_witness :
  exists t1 t2,
    run "2025-06-01T12:00:01Z" (ClearThoughts no_params)
      (mkThinkTool Unlocked [mkThoughtItem "old" "2025-06-01T12:00:00Z"])
    = Returns (Some (mkResult [TextContent "Thoughts cleared."]), None) t1 /\
    run "2025-06-01T12:00:02Z" (GetThoughts no_params) t1
    = Returns (None, Some (errors_New
        "no thoughts recorded. Use the think tool to record a thought first.")) t1 /\
    run "2025-06-01T12:00:03Z" (Think (think_params "new")) t1
    = Returns (Some (mkResult [TextContent ("Thought: " ++ tidyThought "new")]), None)
        t2 /\
    run "2025-06-01T12:00:04Z" (GetThoughts no_params) t2
    = Returns
        (Some (mkResult
           [TextContent
              ("Thought #1 at " ++ "2025-06-01T12:00:03Z" ++ ":" ++ LF ++ "new" ++ LF)]),
         None) t2.
Proof.
  apply (ClearThoughts_starts_afresh
           (mkThinkTool Unlocked [mkThoughtItem "old" "2025-06-01T12:00:00Z"])).
  - reflexivity.
  - discriminate.
Defined.

Lemma range_thoughts_app (items : list ThoughtItem) (it : ThoughtItem) :
  forall i acc,
    range_thoughts i (items ++ [it]) acc
    = (range_thoughts i items acc
       ++ [Sprintf_thought (i + List.length items + 1) (CreatedAt it) (Thought it)])%list.
Proof.
  induction items as [|x items IH]; intros i acc; cbn [range_thoughts app List.length].
  - now rewrite Nat.add_0_r.
  - rewrite IH. do 3 f_equal. lia.
Qed.

Lemma range_thoughts_length (items : list ThoughtItem) :
  forall i acc,
    List.length (range_thoughts i items acc) = List.length acc + List.length items.
Proof.
  induction items as [|x items IH]; intros i acc; cbn [range_thoughts List.length].
  - lia.
  - rewrite IH, length_app. simpl. lia.
Qed.

Lemma strings_Join_snoc (elems : list string) (e sep : string) :
  elems <> [] ->
  strings_Join (elems ++ [e]) sep = strings_Join elems sep ++ sep ++ e.
Proof.
  destruct elems as [|x rest]; [intros H; now elim H|]. intros _.
  cbn [strings_Join app]. now rewrite fold_left_app.
Qed.

(** X4. What [GetThoughts] returns only grows at its end: after a [Think]
    with a non-empty thought on a tool that holds m >= 1 thoughts, the text
    is the text from before, a line feed, and the paragraph of the new
    thought, numbered m + 1. *)
Theorem GetThoughts_grows_at_end (t : ThinkTool) (now1 now2 now3 s : string) :
  mu t = Unlocked -> s <> "" -> thoughts t <> [] ->
  exists out t',
    run now1 (GetThoughts no_params) t
    = Returns (Some (mkResult [TextContent out]), None) t /\
    run now2 (Think (think_params s)) t
    = Returns (Some (mkResult [TextContent ("Thought: " ++ tidyThought s)]), None) t' /\
    exists d,
      decimal_numeral d = Some (List.length (thoughts t) + 1) /\
      run now3 (GetThoughts no_params) t'
      = Returns
          (Some (mkResult
             [TextContent
                (out ++ LF ++ "Thought #" ++ d ++ " at " ++ now2 ++ ":" ++ LF
                   ++ s ++ LF)]), None) t'.
Proof.
  intros Hmu Hs Hl.
  exists (strings_Join (range_thoughts 0 (thoughts t) []) LF),
    (mkThinkTool Unlocked (thoughts t ++ [mkThoughtItem s now2])).
  split; [exact (run_GetThoughts_nonempty t now1 Hmu Hl)|].
  split; [exact (run_Think_nonempty t now2 s Hmu Hs)|].
  exists (fmt_d (List.length (thoughts t) + 1)).
  split; [apply fmt_d_decimal|].
  rewrite run_GetThoughts_nonempty.
  - cbn [thoughts]. rewrite range_thoughts_app, strings_Join_snoc.
    + reflexivity.
    + intros Hnil. apply (f_equal (@List.length string)) in Hnil.
      rewrite range_thoughts_length in Hnil. simpl in Hnil.
      destruct (thoughts t); [now elim Hl | discriminate].
  - reflexivity.
  - cbn [thoughts]. destruct (thoughts t); discriminate.
Qed.

Lemma GetThoughts_grows_at_end_witness :
  exists out t',
    run "2025-06-01T12:00:01Z" (GetThoughts no_params)
      (mkThinkTool Unlocked [mkThoughtItem "a" "2025-06-01T12:00:00Z"])
    = Returns (Some (mkResult [TextContent out]), None)
        (mkThinkTool Unlocked [mkThoughtItem "a" "2025-06-01T12:00:00Z"]) /\
    run "2025-06-01T12:00:02Z" (Think (think_params "b"))
      (mkThinkTool Unlocked [mkThoughtItem "a" "2025-06-01T12:00:00Z"])
    = Returns (Some (mkResult [TextContent ("Thought: " ++ tidyThought "b")]), None) t' /\
    exists d,
      decimal_numeral d = Some (1 + 1) /\
      run "2025-06-01T12:00:03Z" (GetThoughts no_params) t'
      = Returns
          (Some (mkResult
             [TextContent
                (out ++ LF ++ "Thought #" ++ d ++ " at " ++ "2025-06-01T12:00:02Z"
                   ++ ":" ++ LF ++ "b" ++ LF)]), None) t'.
Proof.
  apply (GetThoughts_grows_at_end
           (mkThinkTool Unlocked [mkThoughtItem "a" "2025-06-01T12:00:00Z"])).
  - reflexivity.
  - discriminate.
  - discriminate.
Defined.

(** X5. [GetThoughts] copies the thoughts into its text as they are, so
    the text does not tell where one thought ends: after the two calls
    [think a] and [think b], and after the single call [think] of [a], two
    line feeds, the heading "Thought #2 at ...:" and [b], the notebook holds
    two thoughts in one case and one in the other, and [GetThoughts]
    returns the same text. *)
Theorem GetThoughts_text_ambiguous (a b ta tb now : string) :
  a <> "" -> b <> "" ->
  exists t2 t1 out,
    think_all [(a, ta); (b, tb)] zero_ThinkTool = Some t2 /\
    think_all [(a ++ LF ++ LF ++ "Thought #2 at " ++ tb ++ ":" ++ LF ++ b, ta)]
      zero_ThinkTool = Some t1 /\
    List.length (thoughts t2) = 2 /\
    List.length (thoughts t1) = 1 /\
    run now (GetThoughts no_params) t2 = Returns (text_result out) t2 /\
    run now (GetThoughts no_params) t1 = Returns (text_result out) t1.
Proof.
  intros Ha Hb.
  exists (mkThinkTool Unlocked [mkThoughtItem a ta; mkThoughtItem b tb]).
  exists (mkThinkTool Unlocked
            [mkThoughtItem
               (a ++ LF ++ LF ++ "Thought #2 at " ++ tb ++ ":" ++ LF ++ b) ta]).
  exists (strings_Join
            (range_thoughts 0 [mkThoughtItem a ta; mkThoughtItem b tb] []) LF).
  split.
  { rewrite think_all_spec; [reflexivity | reflexivity|].
    repeat constructor; assumption. }
  split.
  { rewrite think_all_spec; [reflexivity | reflexivity|].
    repeat constructor. cbn [fst].
    destruct a; [now elim Ha | discriminate]. }
  split; [reflexivity|]. split; [reflexivity|].
  split; [apply run_GetThoughts_nonempty; [reflexivity | discriminate]|].
  rewrite run_GetThoughts_nonempty by (auto; discriminate).
  cbn [thoughts range_thoughts strings_Join fold_left app Nat.add CreatedAt Thought].
  unfold Sprintf_thought. rewrite !append_assoc. reflexivity.
Qed.

Lemma GetThoughts_text_ambiguous_witness :
  exists t2 t1 out,
    think_all [("a", "2025-06-01T12:00:00Z"); ("b", "2025-06-01T12:00:01Z")]
      zero_ThinkTool = Some t2 /\
    think_all
      [("a" ++ LF ++ LF ++ "Thought #2 at " ++ "2025-06-01T12:00:01Z" ++ ":"
          ++ LF ++ "b", "2025-06-01T12:00:00Z")]
      zero_ThinkTool = Some t1 /\
    List.length (thoughts t2) = 2 /\
    List.length (thoughts t1) = 1 /\
    run "2025-06-01T12:00:02Z" (GetThoughts no_params) t2
    = Returns (text_result out) t2 /\
    run "2025-06-01T12:00:02Z" (GetThoughts no_params) t1
    = Returns (text_result out) t1.
Proof.
  apply (GetThoughts_text_ambiguous "a" "b" "2025-06-01T12:00:00Z"
           "2025-06-01T12:00:01Z" "2025-06-01T12:00:02Z").
  - discriminate.
  - discriminate.
Defined.

(** ** The echo *)

Lemma slice_to_append (a b : string) : slice_to (a ++ b) (len a) = a.
Proof.
  unfold slice_to, len. induction a as [|x a IH]; simpl.
  - destruct b; reflexivity.
  - now rewrite IH.
Qed.

(** X6. The echo has the length of the thought up to 50 bytes and 53 bytes
    beyond, so it is longer than the thought itself exactly for thoughts of
    51 and of 52 bytes. *)
Theorem tidyThought_length (s : string) :
  len (tidyThought s) = (if (len s <=? 50)%nat then len s else 53) /\
  (len s < len (tidyThought s) <-> len s = 51 \/ len s = 52).
Proof.
  assert (H : len (tidyThought s) = (if (len s <=? 50)%nat then len s else 53)).
  { destruct (Nat.leb_spec (len s) 50) as [Hle|Hlt].
    - now rewrite tidyThought_short.
    - destruct (tidyThought_long s Hlt) as (head & tail & _ & Hlen & ->).
      rewrite len_append, Hlen. reflexivity. }
  split; [exact H|]. rewrite H.
  destruct (Nat.leb_spec (len s) 50); lia.
Qed.

(** X7. Tidying an echo again changes nothing. *)
Theorem tidyThought_idempotent (s : string) :
  tidyThought (tidyThought s) = tidyThought s.
Proof.
  destruct (Nat.le_gt_cases (len s) 50) as [Hle|Hlt].
  - now rewrite !(tidyThought_short s Hle).
  - destruct (tidyThought_long s Hlt) as (head & tail & _ & Hlen & ->).
    unfold tidyThought at 1. rewrite len_append, Hlen. cbn [len String.length Nat.add].
    change (50 <? 53)%nat with true. cbv iota.
    rewrite <- Hlen at 1. now rewrite slice_to_append.
Qed.

(** ** Calls of all three tools at once *)

(** *** The handlers keep the locking discipline *)

Lemma Think_disciplined (s : string) : disciplined (Think (think_params s)).
Proof.
  destruct s as [|a s].
  - apply disciplined_lock. apply holding_unlock.
  - rewrite Think_at_phase by discriminate. cbn [at_phase].
    apply disciplined_lock, holding_load. intros l.
    apply holding_now. intros now. apply holding_store, holding_unlock.
Qed.

Lemma GetThoughts_disciplined : disciplined (GetThoughts no_params).
Proof.
  apply disciplined_lock. cbn [bind t_mu_Lock defer t_thoughts].
  apply holding_load. intros l. cbn [bind].
  destruct (List.length l =? 0)%nat; cbn.
  - apply holding_unlock.
  - apply holding_load. intros items. apply holding_unlock.
Qed.

Lemma ClearThoughts_disciplined : disciplined (ClearThoughts no_params).
Proof. apply disciplined_lock, holding_store, holding_unlock. Qed.

Lemma handler_disciplined (c : call) : disciplined (handler c).
Proof.
  destruct c.
  - apply Think_disciplined.
  - apply GetThoughts_disciplined.
  - apply ClearThoughts_disciplined.
Qed.

(** No call takes more than five instructions. *)
Lemma handler_within (c : call) : within 5 (handler c).
Proof.
  destruct c as [s| |].
  - destruct s as [|a s].
    + apply within_lock, within_unlock, within_ret.
    + cbn [handler]. rewrite Think_at_phase by discriminate. cbn [at_phase].
      apply within_lock, within_load. intros l. apply within_now. intros now.
      apply within_store, within_unlock, within_ret.
  - apply within_lock. cbn [bind t_mu_Lock defer t_thoughts].
    apply within_load. intros l. cbn [bind].
    destruct (List.length l =? 0)%nat; cbn.
    + apply within_unlock, within_ret.
    + apply within_load. intros items. apply within_unlock, within_ret.
  - apply within_lock, within_store, within_unlock, within_ret.
Qed.

(** What a handler returns when run alone for some clock readings, it
    returns for one clock reading: none reads the clock twice. *)
Lemma handler_returns_run (c : call) (t : ThinkTool) (r : HandlerResult)
  (t' : ThinkTool) :
  returns (handler c) t r t' -> exists now, run now (handler c) t = Returns r t'.
Proof.
  intros H. destruct c as [s| |]; cbn [handler] in *.
  - destruct s as [|a s].
    + exists "".
      inversion H as [|k t1 a1 t1' Hmu H1| | | |]; subst; clear H.
      inversion H1 as [| |k t1 a1 t1' Hmu1 H2| | |]; subst; clear H1.
      inversion H2; subst.
      rewrite run_Think_empty by exact Hmu.
      destruct t as [m l]; simpl in *; subst. reflexivity.
    + rewrite Think_at_phase in H by discriminate. cbn [at_phase] in H.
      inversion H as [|k t1 a1 t1' Hmu H1| | | |]; subst; clear H.
      inversion H1 as [| | |k t1 a1 t1' H2| |]; subst; clear H1.
      inversion H2 as [| | | | |k now t1 a1 t1' H3]; subst; clear H2.
      inversion H3 as [| | | |l k t1 a1 t1' H4|]; subst; clear H3.
      inversion H4 as [| |k t1 a1 t1' Hmu1 H5| | |]; subst; clear H4.
      inversion H5; subst.
      exists now. rewrite run_Think_nonempty by (auto; discriminate).
      reflexivity.
  - exists "".
    inversion H as [|k t1 a1 t1' Hmu H1| | | |]; subst; clear H.
    inversion H1 as [| | |k t1 a1 t1' H2| |]; subst; clear H1.
    cbn [thoughts mu bind] in H2.
    destruct (thoughts t) as [|it l] eqn:Hl; cbn in H2.
    + inversion H2 as [| |k t1 a1 t1' Hmu1 H3| | |]; subst; clear H2.
      inversion H3; subst.
      rewrite run_GetThoughts_empty by auto.
      destruct t as [m l]; simpl in *; subst. reflexivity.
    + inversion H2 as [| | |k t1 a1 t1' H3| |]; subst; clear H2.
      inversion H3 as [| |k t1 a1 t1' Hmu1 H4| | |]; subst; clear H3.
      inversion H4; subst.
      rewrite run_GetThoughts_nonempty by (auto; rewrite Hl; discriminate).
      destruct t as [m l']; simpl in *; subst. reflexivity.
  - exists "".
    inversion H as [|k t1 a1 t1' Hmu H1| | | |]; subst; clear H.
    inversion H1 as [| | | |l k t1 a1 t1' H2|]; subst; clear H1.
    inversion H2 as [| |k t1 a1 t1' Hmu1 H3| | |]; subst; clear H2.
    inversion H3; subst.
    rewrite run_ClearThoughts by exact Hmu. reflexivity.
Qed.

(** *** Counting the goroutines inside *)

Lemma insiders_app {A : Type} (a b : list (Prog A)) :
  insiders (a ++ b) = insiders a + insiders b.
Proof. unfold insiders. now rewrite map_app, list_sum_app. Qed.

Lemma insiders_cons {A : Type} (p : Prog A) (g : list (Prog A)) :
  insiders (p :: g) = inside_count p + insiders g.
Proof. reflexivity. Qed.

Lemma holding_inside {A : Type} (p : Prog A) : holding p -> inside_count p = 1.
Proof. destruct 1; reflexivity. Qed.

Lemma disciplined_outside {A : Type} (p : Prog A) :
  disciplined p -> inside_count p = 0.
Proof. destruct 1; reflexivity. Qed.

Lemma insiders_disciplined {A : Type} (g : list (Prog A)) :
  Forall disciplined g -> insiders g = 0.
Proof.
  induction 1 as [|p g Hp _ IH]; [reflexivity|].
  rewrite insiders_cons, IH, (disciplined_outside p Hp). reflexivity.
Qed.

Lemma insiders_returned {A : Type} (rs : list A) : insiders (map Ret rs) = 0.
Proof. induction rs as [|r rs IH]; [reflexivity | exact IH]. Qed.

Lemma insiders_some {A : Type} (g : list (Prog A)) :
  1 <= insiders g ->
  exists g1 p g2, g = (g1 ++ p :: g2)%list /\ inside_count p = 1.
Proof.
  induction g as [|p g IH]; intros H; [cbv in H; lia|].
  rewrite insiders_cons in H.
  destruct (inside_count p) eqn:Hp.
  - destruct IH as (g1 & q & g2 & -> & Hq); [lia|].
    exists (p :: g1), q, g2. split; [reflexivity | exact Hq].
  - exists [], p, g. split; [reflexivity|].
    destruct p; simpl in *; congruence.
Qed.

(** A pool has only returned calls, or a call that has not returned. *)
Lemma returned_or_not {A : Type} (g : list (Prog A)) :
  (exists rs, g = map Ret rs) \/
  (exists g1 p g2, g = (g1 ++ p :: g2)%list /\ forall r, p <> Ret r).
Proof.
  induction g as [|p g [(rs & ->)|(g1 & q & g2 & -> & Hq)]].
  - left. exists []. reflexivity.
  - destruct p as [a| | | | |];
      try (right; eexists [], _, _; split; [reflexivity | discriminate]).
    left. exists (a :: rs). reflexivity.
  - right. exists (p :: g1), q, g2. split; [reflexivity | exact Hq].
Qed.

(** *** Bookkeeping of the calls that have returned *)

Lemma returned_app (a b : list (Prog HandlerResult * Prog HandlerResult)) :
  returned (a ++ b) = (returned a ++ returned b)%list.
Proof.
  induction a as [|[p0 cur] a IH]; [reflexivity|].
  destruct cur; simpl; now rewrite IH.
Qed.

Lemma returned_cons_outside (p0 cur : Prog HandlerResult)
  (l : list (Prog HandlerResult * Prog HandlerResult)) :
  (forall r, cur <> Ret r) -> returned ((p0, cur) :: l) = returned l.
Proof. intros H. destruct cur; try reflexivity. now elim (H a). Qed.

Lemma holding_not_ret {A : Type} (p : Prog A) : holding p -> forall r, p <> Ret r.
Proof. destruct 1; discriminate. Qed.

Lemma returned_all (ths : list (Prog HandlerResult * Prog HandlerResult)) :
  forall rs, map snd ths = map Ret rs ->
  returned ths = combine (map fst ths) rs.
Proof.
  induction ths as [|[p0 cur] ths IH]; intros [|r rs] H; try discriminate;
    [reflexivity|].
  simpl in H. injection H as -> H. simpl. now rewrite (IH rs H).
Qed.

Lemma returned_none (p0s : list (Prog HandlerResult)) :
  Forall disciplined p0s -> returned (map (fun p => (p, p)) p0s) = [].
Proof.
  induction 1 as [|p g Hp _ IH]; [reflexivity|].
  destruct Hp. simpl. exact IH.
Qed.

Lemma serial_snoc (t : ThinkTool) (hist : list (Prog HandlerResult * HandlerResult))
  (t1 : ThinkTool) (p : Prog HandlerResult) (r : HandlerResult) (t2 : ThinkTool) :
  serial t hist t1 -> returns p t1 r t2 -> serial t (hist ++ [(p, r)]) t2.
Proof.
  intros H Hp. induction H as [t|t q s t' rest t1 Hq _ IH]; simpl.
  - exact (serial_cons t p r t2 [] t2 Hp (serial_nil t2)).
  - exact (serial_cons t q s t' _ t2 Hq (IH Hp)).
Qed.

(** A goroutine outside the critical section stands as it stood, whatever
    happens to the tool. *)
Lemma thread_ok_outside (t ts t' ts' : ThinkTool)
  (ths : list (Prog HandlerResult * Prog HandlerResult)) :
  insiders (map snd ths) = 0 ->
  Forall (thread_ok t ts) ths -> Forall (thread_ok t' ts') ths.
Proof.
  induction ths as [|th ths IH]; intros Hin Hok; constructor;
    inversion Hok as [|? ? Hth Hrest]; subst;
    cbn [map] in Hin; rewrite insiders_cons in Hin.
  - destruct Hth as [p0 Hd|p0 cur Hh _|p0 r].
    + now apply ok_waiting.
    + cbn [snd] in Hin. rewrite (holding_inside cur Hh) in Hin. lia.
    + apply ok_returned.
  - apply IH; [lia | exact Hrest].
Qed.

(** *** Calls take effect one at a time *)

Lemma atomic_inv_start (p0s : list (Prog HandlerResult)) (t0 : ThinkTool) :
  Forall disciplined p0s -> mu t0 = Unlocked -> atomic_inv p0s t0 (t0, p0s).
Proof.
  intros Hd Hmu. exists (map (fun p => (p, p)) p0s), [], t0. cbn [fst snd].
  split; [rewrite map_map; apply map_id|].
  split; [rewrite map_map; apply map_id|].
  split; [rewrite Hmu; apply insiders_disciplined, Hd|].
  split.
  { apply Forall_map. revert Hd. apply Forall_impl. intros p Hp.
    now apply ok_waiting. }
  split; [reflexivity|]. split; [exact Hmu|]. split; [constructor|].
  rewrite returned_none by exact Hd. constructor.
Qed.

Lemma atomic_inv_step (p0s : list (Prog HandlerResult)) (t0 : ThinkTool)
  (c c' : Config) :
  atomic_inv p0s t0 c -> sched_step c c' -> atomic_inv p0s t0 c'.
Proof.
  intros (ths & hist & ts & Hfst & Hsnd & Hins & Hok & Hfree & Hts & Hser & Hperm)
    Hstep.
  destruct Hstep as [t t' p p' g1 g2 Hp]. cbn [fst snd] in *.
  apply map_eq_app in Hsnd as (ths1 & ths' & -> & Hg1 & Hsnd).
  apply map_eq_cons in Hsnd as ([p0 cur] & ths2 & -> & Hcur & Hg2).
  cbn [snd] in Hcur. subst g1 g2 cur.
  rewrite insiders_app, insiders_cons in Hins.
  rewrite returned_app in Hperm.
  apply Forall_app in Hok as [Hok1 Hok2].
  apply Forall_cons_iff in Hok2 as [Hth Hok2].
  assert (Hm : mu_count (mu t) <= 1) by (destruct (mu t); simpl; lia).
  assert (Hshape : forall q,
    map fst (ths1 ++ (p0, q) :: ths2) = p0s /\
    map snd (ths1 ++ (p0, q) :: ths2) = (map snd ths1 ++ q :: map snd ths2)%list).
  { intros q. split; [rewrite <- Hfst|]; now rewrite !map_app. }
  destruct Hp as [t k Hmu|t k Hmu|t k|t l k|t k now].
  - (* Lock *)
    assert (Hk : p0 = MuLock k /\ holding k).
    { inversion Hth as [q Hd|q cur Hh _|q r]; subst.
      - inversion Hd; subst. auto.
      - inversion Hh. }
    destruct Hk as [-> Hk]. rewrite Hmu in Hins. simpl in Hins.
    exists (ths1 ++ (MuLock k, k) :: ths2)%list, hist, ts.
    cbn [fst snd mu thoughts].
    split; [apply Hshape|]. split; [apply Hshape|].
    split; [rewrite insiders_app, insiders_cons, (holding_inside k Hk); simpl; lia|].
    split.
    { apply Forall_app. split; [apply (thread_ok_outside t ts); [lia | exact Hok1]|].
      constructor; [|apply (thread_ok_outside t ts); [lia | exact Hok2]].
      apply ok_inside; [exact Hk|]. intros r t2 Hr.
      rewrite <- (Hfree Hmu). now apply returns_lock. }
    split; [discriminate|]. split; [exact Hts|]. split; [exact Hser|].
    rewrite returned_app, (returned_cons_outside _ k _ (holding_not_ret k Hk)).
    exact Hperm.
  - (* Unlock *)
    assert (Hk : exists r, k = Ret r /\
                 forall r' t2, returns (MuUnlock k) t r' t2 -> returns p0 ts r' t2).
    { inversion Hth as [q Hd|q cur Hh Hgo|q r]; subst.
      - inversion Hd.
      - inversion Hh; subst. eauto. }
    destruct Hk as (r & -> & Hgo). rewrite Hmu in Hins. simpl in Hins.
    exists (ths1 ++ (p0, Ret r) :: ths2)%list, (hist ++ [(p0, r)])%list,
      (mkThinkTool Unlocked (thoughts t)).
    cbn [fst snd mu thoughts].
    split; [apply Hshape|]. split; [apply Hshape|].
    split; [rewrite insiders_app, insiders_cons; simpl; lia|].
    split.
    { apply Forall_app. split; [apply (thread_ok_outside t ts); [lia | exact Hok1]|].
      constructor; [apply ok_returned|].
      apply (thread_ok_outside t ts); [lia | exact Hok2]. }
    split; [reflexivity|]. split; [reflexivity|].
    split.
    { apply (serial_snoc t0 hist ts p0 r _ Hser). apply Hgo.
      apply returns_unlock; [exact Hmu | apply returns_ret]. }
    rewrite returned_app. cbn [returned] in Hperm |- *.
    apply Permutation_trans with ((p0, r) :: hist).
    + apply Permutation_sym, Permutation_cons_append.
    + apply Permutation_cons_app. exact Hperm.
  - (* the load of t.thoughts *)
    assert (Hk : holding (k (thoughts t)) /\
                 forall r t2, returns (LoadThoughts k) t r t2 -> returns p0 ts r t2).
    { inversion Hth as [q Hd|q cur Hh Hgo|q r]; subst.
      - inversion Hd.
      - inversion Hh; subst. auto. }
    destruct Hk as [Hk Hgo]. simpl in Hins.
    exists (ths1 ++ (p0, k (thoughts t)) :: ths2)%list, hist, ts.
    cbn [fst snd].
    split; [apply Hshape|]. split; [apply Hshape|].
    split; [rewrite insiders_app, insiders_cons, (holding_inside _ Hk); exact Hins|].
    split.
    { apply Forall_app. split; [exact Hok1|]. constructor; [|exact Hok2].
      apply ok_inside; [exact Hk|]. intros r t2 Hr.
      now apply Hgo, returns_load. }
    split; [exact Hfree|]. split; [exact Hts|]. split; [exact Hser|].
    rewrite returned_app, (returned_cons_outside _ _ _ (holding_not_ret _ Hk)).
    cbn [returned] in Hperm. exact Hperm.
  - (* the store to t.thoughts *)
    assert (Hk : holding k /\
                 forall r t2, returns (StoreThoughts l k) t r t2 -> returns p0 ts r t2).
    { inversion Hth as [q Hd|q cur Hh Hgo|q r]; subst.
      - inversion Hd.
      - inversion Hh; subst. auto. }
    destruct Hk as [Hk Hgo]. simpl in Hins.
    assert (Hlocked : mu t = Locked) by (destruct (mu t); simpl in *; [lia | reflexivity]).
    exists (ths1 ++ (p0, k) :: ths2)%list, hist, ts.
    cbn [fst snd mu].
    split; [apply Hshape|]. split; [apply Hshape|].
    split; [rewrite insiders_app, insiders_cons, (holding_inside _ Hk); exact Hins|].
    split.
    { apply Forall_app. split; [apply (thread_ok_outside t ts); [lia | exact Hok1]|].
      constructor; [|apply (thread_ok_outside t ts); [lia | exact Hok2]].
      apply ok_inside; [exact Hk|]. intros r t2 Hr.
      now apply Hgo, returns_store. }
    split; [rewrite Hlocked; discriminate|]. split; [exact Hts|].
    split; [exact Hser|].
    rewrite returned_app, (returned_cons_outside _ _ _ (holding_not_ret _ Hk)).
    cbn [returned] in Hperm. exact Hperm.
  - (* the clock *)
    assert (Hk : holding (k now) /\
                 forall r t2, returns (TimeNowRFC3339 k) t r t2 -> returns p0 ts r t2).
    { inversion Hth as [q Hd|q cur Hh Hgo|q r]; subst.
      - inversion Hd.
      - inversion Hh; subst. auto. }
    destruct Hk as [Hk Hgo]. simpl in Hins.
    exists (ths1 ++ (p0, k now) :: ths2)%list, hist, ts.
    cbn [fst snd].
    split; [apply Hshape|]. split; [apply Hshape|].
    split; [rewrite insiders_app, insiders_cons, (holding_inside _ Hk); exact Hins|].
    split.
    { apply Forall_app. split; [exact Hok1|]. constructor; [|exact Hok2].
      apply ok_inside; [exact Hk|]. intros r t2 Hr.
      now apply Hgo, (returns_now k now). }
    split; [exact Hfree|]. split; [exact Hts|]. split; [exact Hser|].
    rewrite returned_app, (returned_cons_outside _ _ _ (holding_not_ret _ Hk)).
    cbn [returned] in Hperm. exact Hperm.
Qed.

Lemma atomic_inv_steps (p0s : list (Prog HandlerResult)) (t0 : ThinkTool)
  (n : nat) (c : Config) :
  Forall disciplined p0s -> mu t0 = Unlocked ->
  steps n (t0, p0s) c -> atomic_inv p0s t0 c.
Proof.
  intros Hd Hmu. remember (t0, p0s) as c0 eqn:Hc0.
  induction 1 as [c|n c c' c'' _ IH Hstep].
  - subst c. exact (atomic_inv_start p0s t0 Hd Hmu).
  - exact (atomic_inv_step p0s t0 c' c'' (IH Hc0) Hstep).
Qed.

Lemma holding_step {A : Type} (p : Prog A) (t : ThinkTool) :
  holding p -> mu t = Locked -> exists t' p', instr_step t p t' p'.
Proof.
  intros Hp Hmu. destruct Hp.
  - eexists _, _. now apply step_unlock.
  - eexists _, _. apply step_load.
  - eexists _, _. apply step_store.
  - eexists _, _. apply (step_now t k "").
Qed.

(** While a call has not returned, some goroutine has a step. *)
Lemma atomic_inv_progress (p0s : list (Prog HandlerResult)) (t0 : ThinkTool)
  (c : Config) :
  atomic_inv p0s t0 c ->
  (exists rs, snd c = map Ret rs) \/ (exists c', sched_step c c').
Proof.
  intros (ths & hist & ts & Hfst & Hsnd & Hins & Hok & _).
  destruct c as [t g]. cbn [fst snd] in *.
  destruct (mu t) eqn:Hmu; cbn [mu_count] in Hins.
  - destruct (returned_or_not g) as [Hall|(g1 & p & g2 & -> & Hp)]; [now left|].
    right.
    apply map_eq_app in Hsnd as (ths1 & ths' & -> & Hg1 & Hsnd).
    apply map_eq_cons in Hsnd as ([p0 cur] & ths2 & -> & Hcur & Hg2).
    cbn [snd] in Hcur. subst cur.
    apply Forall_app in Hok as [_ Hok2].
    apply Forall_cons_iff in Hok2 as [Hth _].
    rewrite insiders_app, insiders_cons in Hins.
    inversion Hth as [q Hd|q cur Hh _|q r]; subst.
    + destruct Hd as [k Hk]. eexists. apply sched_pick. now apply step_lock.
    + rewrite (holding_inside p Hh) in Hins. lia.
    + now elim (Hp r).
  - right.
    destruct (insiders_some g) as (g1 & p & g2 & -> & Hp); [lia|].
    apply map_eq_app in Hsnd as (ths1 & ths' & -> & Hg1 & Hsnd).
    apply map_eq_cons in Hsnd as ([p0 cur] & ths2 & -> & Hcur & Hg2).
    cbn [snd] in Hcur. subst cur.
    apply Forall_app in Hok as [_ Hok2].
    apply Forall_cons_iff in Hok2 as [Hth _].
    inversion Hth as [q Hd|q cur Hh _|q r]; subst.
    + rewrite (disciplined_outside p Hd) in Hp. discriminate.
    + destruct (holding_step p t Hh Hmu) as (t' & p' & Hstep).
      eexists. apply sched_pick. exact Hstep.
    + discriminate.
Qed.

(** Once all calls have returned, they can be lined up so that, run one
    after the other, they return what they returned and leave the tool as
    it is. *)
Lemma atomic_inv_final (p0s : list (Prog HandlerResult)) (t0 t' : ThinkTool)
  (rs : list HandlerResult) :
  atomic_inv p0s t0 (t', map Ret rs) ->
  mu t' = Unlocked /\
  exists hist, Permutation hist (combine p0s rs) /\ serial t0 hist t'.
Proof.
  intros (ths & hist & ts & Hfst & Hsnd & Hins & _ & Hfree & _ & Hser & Hperm).
  cbn [fst snd] in *.
  rewrite insiders_returned in Hins.
  assert (Hmu : mu t' = Unlocked) by (destruct (mu t'); [reflexivity | discriminate]).
  split; [exact Hmu|].
  exists hist. rewrite (Hfree Hmu).
  rewrite (returned_all ths rs Hsnd), Hfst in Hperm. auto.
Qed.

(** *** No execution runs for ever *)

Lemma within_step {A : Type} (t t' : ThinkTool) (p p' : Prog A) (n : nat) :
  instr_step t p t' p' -> within n p -> exists m, n = S m /\ within m p'.
Proof.
  intros Hstep Hw. destruct Hstep; inversion Hw; subst; eauto.
Qed.

Lemma budget_step (ns : list nat) (c c' : Config) :
  Forall2 within ns (snd c) -> sched_step c c' ->
  exists ns', Forall2 within ns' (snd c') /\ list_sum ns = S (list_sum ns').
Proof.
  intros Hw Hstep. destruct Hstep as [t t' p p' g1 g2 Hp]. cbn [snd] in *.
  apply Forall2_app_inv_r in Hw as (ns1 & ns' & Hw1 & Hw2 & ->).
  inversion Hw2 as [|n q ns2 g Hn Hw3]; subst.
  destruct (within_step t t' p p' n Hp Hn) as (m & -> & Hm).
  exists (ns1 ++ m :: ns2)%list. split.
  - apply Forall2_app; [exact Hw1 | now constructor].
  - rewrite !list_sum_app. simpl. lia.
Qed.

Lemma budget_steps (n : nat) (c c' : Config) :
  steps n c c' ->
  forall ns, Forall2 within ns (snd c) -> n <= list_sum ns.
Proof.
  intros Hsteps ns Hw.
  cut (exists ns', Forall2 within ns' (snd c') /\ list_sum ns = n + list_sum ns').
  { intros (ns' & _ & ->). lia. }
  induction Hsteps as [c|n c c' c'' _ IH Hstep].
  - exists ns. auto.
  - destruct (IH Hw) as (ns1 & Hw1 & Heq).
    destruct (budget_step ns1 c' c'' Hw1 Hstep) as (ns2 & Hw2 & Heq2).
    exists ns2. split; [exact Hw2 | lia].
Qed.

Lemma handlers_budget (calls : list call) :
  exists ns, Forall2 within ns (map handler calls) /\
             list_sum ns = 5 * List.length calls.
Proof.
  induction calls as [|c calls (ns & Hw & Hsum)].
  - exists []. split; [constructor | reflexivity].
  - exists (5 :: ns). split.
    + constructor; [apply handler_within | exact Hw].
    + simpl in *. lia.
Qed.

Lemma handlers_inv (calls : list call) (t0 : ThinkTool) (n : nat) (c : Config) :
  mu t0 = Unlocked ->
  steps n (t0, map handler calls) c ->
  atomic_inv (map handler calls) t0 c.
Proof.
  intros Hmu. apply atomic_inv_steps; [|exact Hmu].
  apply Forall_map, Forall_forall. intros x _. apply handler_disciplined.
Qed.

(** X8. Mutual exclusion.  However the calls of the three tools are
    interleaved, at every moment at most one goroutine is past its [Lock]
    and before its return, and the mutex is held exactly when there is
    one. *)
Theorem handlers_mutual_exclusion (calls : list call) (t0 : ThinkTool)
  (n : nat) (c : Config) :
  mu t0 = Unlocked ->
  steps n (t0, map handler calls) c ->
  insiders (snd c) <= 1 /\
  (insiders (snd c) = 1 <-> mu (fst c) = Locked).
Proof.
  intros Hmu Hsteps.
  destruct (handlers_inv calls t0 n c Hmu Hsteps)
    as (ths & hist & ts & _ & _ & Hins & _).
  rewrite Hins. destruct (mu (fst c)); simpl; split; try lia;
    split; intros H; try reflexivity; discriminate.
Qed.

Lemma handlers_mutual_exclusion_witness :
  insiders
    (snd (mkThinkTool Locked [],
          [at_phase "a" NotStarted; at_phase "b" (HasRead [])])) <= 1 /\
  (insiders
     (snd (mkThinkTool Locked [],
           [at_phase "a" NotStarted; at_phase "b" (HasRead [])])) = 1
   <-> mu (fst (mkThinkTool Locked [],
                [at_phase "a" NotStarted; at_phase "b" (HasRead [])])) = Locked).
Proof.
  apply (handlers_mutual_exclusion [CallThink "a"; CallThink "b"] zero_ThinkTool 2).
  - reflexivity.
  - apply (sched_exec_steps [(1, ""); (1, "")]). reflexivity.
Defined.

(** X9. No deadlock and no endless run.  However the calls of the three
    tools are interleaved, an execution has at most five instructions per
    call, and at every moment either all calls have returned or some
    goroutine can take a step. *)
Theorem handlers_all_return (calls : list call) (t0 : ThinkTool)
  (n : nat) (c : Config) :
  mu t0 = Unlocked ->
  steps n (t0, map handler calls) c ->
  n <= 5 * List.length calls /\
  ((exists rs, snd c = map Ret rs /\ List.length rs = List.length calls) \/
   (exists c', sched_step c c')).
Proof.
  intros Hmu Hsteps. split.
  - destruct (handlers_budget calls) as (ns & Hw & <-).
    exact (budget_steps n _ c Hsteps ns Hw).
  - pose proof (handlers_inv calls t0 n c Hmu Hsteps) as Hinv.
    destruct (atomic_inv_progress _ _ _ Hinv) as [(rs & Hrs)|Hstep]; [left|now right].
    exists rs. split; [exact Hrs|].
    destruct Hinv as (ths & _ & _ & Hfst & Hsnd & _).
    apply (f_equal (@List.length _)) in Hfst, Hsnd.
    rewrite Hrs in Hsnd. rewrite !length_map in *. congruence.
Qed.

Lemma handlers_all_return_witness :
  2 <= 5 * 2 /\
  ((exists rs,
      snd (mkThinkTool Locked [],
           [at_phase "a" NotStarted; at_phase "b" (HasRead [])]) = map Ret rs /\
      List.length rs = 2) \/
   (exists c',
      sched_step (mkThinkTool Locked [],
                  [at_phase "a" NotStarted; at_phase "b" (HasRead [])]) c')).
Proof.
  apply (handlers_all_return [CallThink "a"; CallThink "b"] zero_ThinkTool 2).
  - reflexivity.
  - apply (sched_exec_steps [(1, ""); (1, "")]). reflexivity.
Defined.

Lemma combine_map_handler (calls : list call) :
  forall rs : list HandlerResult,
    combine (map handler calls) rs
    = map (fun cr => (handler (fst cr), snd cr)) (combine calls rs).
Proof.
  induction calls as [|c calls IH]; intros [|r rs]; try reflexivity.
  simpl. now rewrite IH.
Qed.

Lemma serial_handlers (order : list (call * HandlerResult)) :
  forall t t',
    serial t (map (fun cr => (handler (fst cr), snd cr)) order) t' ->
    serial_calls t order t'.
Proof.
  induction order as [|[c r] order IH]; intros t t' H; inversion H; subst.
  - constructor.
  - match goal with Hr : returns (handler _) _ _ _ |- _ =>
      destruct (handler_returns_run _ _ _ _ Hr) as (now & Hrun) end.
    eapply serial_calls_cons; [exact Hrun | apply IH; assumption].
Qed.

(** X10. Calls take effect one at a time.  When the calls of the three
    tools, interleaved in any way on one tool, have all returned, they can
    be put in an order such that, made one after the other in that order,
    each call returns what it returned in the interleaved execution and the
    tool ends as it ended there. *)
Theorem handlers_serializable (calls : list call) (t0 : ThinkTool) (n : nat)
  (t' : ThinkTool) (rs : list HandlerResult) :
  mu t0 = Unlocked ->
  steps n (t0, map handler calls) (t', map Ret rs) ->
  exists order,
    Permutation order (combine calls rs) /\ serial_calls t0 order t'.
Proof.
  intros Hmu Hsteps.
  pose proof (handlers_inv calls t0 n _ Hmu Hsteps) as Hinv.
  destruct (atomic_inv_final _ _ _ _ Hinv) as (_ & hist & Hperm & Hser).
  rewrite combine_map_handler in Hperm.
  destruct (Permutation_map_inv _ _ Hperm) as (order & -> & Hperm').
  exists order. split; [now apply Permutation_sym | now apply serial_handlers].
Qed.

Lemma handlers_serializable_witness :
  exists order,
    Permutation order
      (combine [CallGetThoughts; CallThink "a"]
         [text_result ("Thought #1 at 2025-06-01T12:00:00Z:" ++ LF ++ "a" ++ LF);
          text_result "Thought: a"]) /\
    serial_calls zero_ThinkTool order
      (mkThinkTool Unlocked [mkThoughtItem "a" "2025-06-01T12:00:00Z"]).
Proof.
  apply (handlers_serializable [CallGetThoughts; CallThink "a"] zero_ThinkTool 9).
  - reflexivity.
  - apply (sched_exec_steps
      [(1, ""); (1, ""); (1, "2025-06-01T12:00:00Z"); (1, ""); (1, "");
       (0, ""); (0, ""); (0, ""); (0, "")]).
    reflexivity.
Defined.

Lemma committed_incl (ths : list (string * phase)) :
  incl (committed ths) (map fst ths).
Proof.
  induction ths as [|[s ph] ths IH]; [apply incl_refl|].
  destruct ph; simpl; try (apply incl_tl; exact IH);
    (apply incl_cons; [now left | apply incl_tl; exact IH]).
Qed.

(** X11. Concurrent [think] calls never disturb what the notebook holds
    already: at every moment of every interleaving the entries present at
    the start are still there, in front and in order, followed only by
    thoughts of the calls; and when all instructions are executed these are
    the thoughts of all the calls, each stored once. *)
Theorem Think_concurrent_keeps_entries (cs : list string) (init : list ThoughtItem)
  (n : nat) (c : Config) :
  Forall (fun s => s <> "") cs ->
  steps n (mkThinkTool Unlocked init, map (fun s => Think (think_params s)) cs) c ->
  exists added,
    thoughts (fst c) = (init ++ added)%list /\
    incl (map Thought added) cs /\
    List.length added <= List.length cs /\
    (n = 5 * List.length cs -> Permutation (map Thought added) cs).
Proof.
  intros Hne Hsteps.
  destruct (think_inv_steps cs init Hne n c Hsteps)
    as (ths & added & _ & Hcs & Hprog & _ & _ & Hth & Hperm).
  exists added. split; [exact Hth|].
  assert (Hincl : incl (committed ths) cs)
    by (rewrite <- Hcs; apply committed_incl).
  split; [|split].
  - intros s Hs. apply Hincl. exact (Permutation_in s Hperm Hs).
  - rewrite <- (length_map Thought), (Permutation_length Hperm), <- Hcs, length_map.
    clear. induction ths as [|[s ph] ths IH]; [simpl; lia|].
    destruct ph; simpl in *; lia.
  - intros ->. 
    assert (Hfin : Forall (fun th => snd th = Finished) ths).
    { apply progress_full. rewrite Hprog, <- Hcs, length_map. reflexivity. }
    destruct (all_finished ths Hfin) as (_ & _ & Hc).
    now rewrite Hc, Hcs in Hperm.
Qed.

Lemma Think_concurrent_keeps_entries_witness :
  exists added,
    thoughts (fst (mkThinkTool Locked
                     [mkThoughtItem "old" "2025-06-01T11:00:00Z";
                      mkThoughtItem "b" "2025-06-01T12:00:00Z"],
                   [at_phase "a" NotStarted; at_phase "b" Written]))
    = ([mkThoughtItem "old" "2025-06-01T11:00:00Z"] ++ added)%list /\
    incl (map Thought added) ["a"; "b"] /\
    List.length added <= 2 /\
    (4 = 5 * 2 -> Permutation (map Thought added) ["a"; "b"]).
Proof.
  apply (Think_concurrent_keeps_entries ["a"; "b"]
           [mkThoughtItem "old" "2025-06-01T11:00:00Z"] 4).
  - repeat constructor; discriminate.
  - apply (sched_exec_steps
      [(1, ""); (1, ""); (1, "2025-06-01T12:00:00Z"); (1, "")]).
    reflexivity.
Defined.
